(** * Whispering Woods dashboards: classifier, wind transforms, filter pass

    A shallow embedding of the Streamlit scripts [app.py], [app_weather.py],
    [app_wind.py], [app_wind_icon.py], [app_wind_text.py] and
    [app_wind_static.py].

    Numbers.  Floats are modelled by rational numbers: a float literal
    denotes the decimal number it is written as, and a float read from the
    data is [PyFloat (Finite q)] for its value [q].  Comparisons are exact.
    The sum, the quotient and the remainder of two floats are rounded to
    binary64 as CPython rounds them ([round64]: to the nearest double, a tie
    to the even one, an overflow to infinity).  Products are exact, and a
    float that comes out of [sin] or [cos] is kept as a real number,
    [PyReal]: the wind formulas are read over the reals.  Infinities and NaN
    follow IEEE 754; the sign of a zero is not kept. *)

From Stdlib Require Import ZArith QArith Qround Qabs Reals Qreals.
From Stdlib Require Import Lqa Lra Lia.
From Stdlib Require Import List String Bool.
Import ListNotations.

Open Scope Z_scope.

(** ** Exceptions and results *)

Inductive exn : Type :=
| TypeError | ValueError | OverflowError | ZeroDivisionError
| KeyError | AttributeError | IndexError | NameError.

Inductive result (A : Type) : Type :=
| Ok (a : A)
| Raise (e : exn).
Arguments Ok {A} a.
Arguments Raise {A} e.

Definition rbind {A B} (r : result A) (k : A -> result B) : result B :=
  match r with Ok a => k a | Raise e => Raise e end.

Declare Scope res_scope.
Delimit Scope res_scope with res.
Notation "x <- r ;; k" := (rbind r (fun x => k))
  (at level 61, r at next level, right associativity) : res_scope.

Fixpoint rmap {A B} (f : A -> result B) (l : list A) : result (list B) :=
  match l with
  | [] => Ok []
  | x :: l' => (y <- f x ;; ys <- rmap f l' ;; Ok (y :: ys))%res
  end.

(** ** Python values *)

Inductive xfloat (A : Type) : Type :=
| Finite (a : A)
| Inf (negative : bool)
| NaN.
Arguments Finite {A} a.
Arguments Inf {A} negative.
Arguments NaN {A}.

Definition pyfloat : Type := xfloat Q.
Definition xreal : Type := xfloat R.

(** A pandas timestamp: nanoseconds since the epoch, [None] for NaT. *)
Definition timestamp : Type := option Z.

#[warnings="-register-all"]
Inductive pyobj : Type :=
| PyInt (z : Z)
| PyFloat (f : pyfloat)
| PyReal (x : xreal)
| PyStr (s : string)
| PyNone
| PyTimestamp (t : timestamp)
| PyList (l : list pyobj)
| PyTuple (l : list pyobj).

(** ** Arithmetic on extended numbers, generic in the carrier *)

Section XArith.
Context {A : Type}.
Variables (add sub mul div : A -> A -> A) (opp : A -> A).
Variables (of_Z : Z -> A) (floor : A -> Z).
Variables (ltb : A -> A -> bool) (is_zero is_neg : A -> bool).

(** [x > y]: false as soon as one side is NaN. *)
Definition xgt (x y : xfloat A) : bool :=
  match x, y with
  | NaN, _ | _, NaN => false
  | Finite a, Finite b => ltb b a
  | Finite _, Inf neg => neg
  | Inf neg, Finite _ => negb neg
  | Inf n1, Inf n2 => negb n1 && n2
  end.

Definition xadd (x y : xfloat A) : xfloat A :=
  match x, y with
  | NaN, _ | _, NaN => NaN
  | Finite a, Finite b => Finite (add a b)
  | Finite _, Inf s | Inf s, Finite _ => Inf s
  | Inf s, Inf t => if Bool.eqb s t then Inf s else NaN
  end.

Definition xmul (x y : xfloat A) : xfloat A :=
  match x, y with
  | NaN, _ | _, NaN => NaN
  | Finite a, Finite b => Finite (mul a b)
  | Finite a, Inf s | Inf s, Finite a =>
      if is_zero a then NaN else Inf (xorb s (is_neg a))
  | Inf s, Inf t => Inf (xorb s t)
  end.

(** Python's [x / y] on floats: a zero divisor raises, whatever [x] is. *)
Definition xdiv (x y : xfloat A) : result (xfloat A) :=
  match y with
  | NaN => Ok NaN
  | Finite b =>
      if is_zero b then Raise ZeroDivisionError
      else match x with
           | Finite a => Ok (Finite (div a b))
           | Inf s => Ok (Inf (xorb s (is_neg b)))
           | NaN => Ok NaN
           end
  | Inf _ =>
      match x with
      | Finite _ => Ok (Finite (of_Z 0))
      | _ => Ok NaN
      end
  end.

(** Python's [x % y] on floats (CPython [float_rem]): C [fmod], then the
    remainder is moved to the sign of the divisor. *)
Definition xmod (x y : xfloat A) : result (xfloat A) :=
  match y with
  | NaN => Ok NaN
  | Finite b =>
      if is_zero b then Raise ZeroDivisionError
      else match x with
           | Finite a => Ok (Finite (sub a (mul b (of_Z (floor (div a b))))))
           | _ => Ok NaN
           end
  | Inf s =>
      match x with
      | Finite a =>
          if is_zero a then Ok (Finite (of_Z 0))
          else if Bool.eqb s (is_neg a) then Ok (Finite a) else Ok (Inf s)
      | _ => Ok NaN
      end
  end.

(** [int(x)]: truncation toward zero; NaN and the infinities are
    rejected. *)
Definition xtrunc (x : xfloat A) : result Z :=
  match x with
  | Finite a => Ok (if is_neg a then - floor (opp a) else floor a)
  | NaN => Raise ValueError
  | Inf _ => Raise OverflowError
  end.
End XArith.

Definition Qltb (a b : Q) : bool := negb (Qle_bool b a).
Definition Qis_zero (a : Q) : bool := Qeq_bool a 0.
Definition Qis_neg (a : Q) : bool := Qltb a 0.

(** *** Rounding to binary64

    53 bits of precision, exponents of the last place from -1074 (the
    subnormal doubles) to 971. *)

(** [a * 2 ^ k] *)
Definition scale2 (a : Q) (k : Z) : Q :=
  if 0 <=? k then (a * inject_Z (2 ^ k))%Q
  else (a / inject_Z (2 ^ (- k)))%Q.

(** The integer part of the binary logarithm of [a > 0]. *)
Definition ilog2 (a : Q) : Z :=
  let k := Z.log2 (Qnum a) - Z.log2 (Zpos (Qden a)) in
  if Qle_bool (scale2 1 k) a then k else k - 1.

(** The nearest integer, a tie going to the even one. *)
Definition rne (x : Q) : Z :=
  let f := Qfloor x in
  match ((x - inject_Z f) ?= (1 # 2))%Q with
  | Lt => f
  | Gt => f + 1
  | Eq => if Z.even f then f else f + 1
  end.

(** The double nearest to [q]. *)
Definition round64 (q : Q) : pyfloat :=
  let q := Qred q in
  if Qeq_bool q 0 then Finite 0%Q
  else
    let a := Qabs q in
    let e := Z.max (ilog2 a - 52) (-1074) in
    let m := rne (scale2 a (- e)) in
    let r := Qred (scale2 (inject_Z m) e) in
    if Qle_bool (inject_Z (2 ^ 1024)) r then Inf (Qltb q 0)
    else Finite (if Qltb q 0 then - r else r)%Q.

(** C [fmod]: the remainder has the sign of [a] and is exact. *)
Definition fmod (a b : Q) : Q :=
  let q := (a / b)%Q in
  let t := if Qis_neg q then - Qfloor (- q) else Qfloor q in
  (a - b * inject_Z t)%Q.

Definition float_gt : pyfloat -> pyfloat -> bool := xgt Qltb.

(** [x + y] on floats: the exact sum, rounded. *)
Definition float_add (x y : pyfloat) : pyfloat :=
  match xadd Qplus x y with
  | Finite s => round64 s
  | z => z
  end.

Definition float_mul : pyfloat -> pyfloat -> pyfloat :=
  xmul Qmult Qis_zero Qis_neg.

(** [x / y] on floats: the exact quotient, rounded. *)
Definition float_div (x y : pyfloat) : result pyfloat :=
  match xdiv Qdiv inject_Z Qis_zero Qis_neg x y with
  | Ok (Finite s) => Ok (round64 s)
  | z => z
  end.

(** [x % y] on floats (CPython [float_rem]): C [fmod]; a remainder that is
    not zero and has the other sign than the divisor gets the divisor
    added, and this sum is rounded. *)
Definition float_mod (x y : pyfloat) : result pyfloat :=
  match y with
  | NaN => Ok NaN
  | Finite b =>
      if Qis_zero b then Raise ZeroDivisionError
      else match x with
           | Finite a =>
               let r := fmod a b in
               if Qis_zero r then Ok (Finite 0%Q)
               else if xorb (Qis_neg b) (Qis_neg r) then Ok (round64 (r + b))
               else Ok (Finite r)
           | _ => Ok NaN
           end
  | Inf s =>
      match x with
      | Finite a =>
          if Qis_zero a then Ok (Finite 0%Q)
          else if Bool.eqb s (Qis_neg a) then Ok (Finite a) else Ok (Inf s)
      | _ => Ok NaN
      end
  end.

Definition float_trunc : pyfloat -> result Z :=
  xtrunc Qopp Qfloor Qis_neg.

Definition Rltb (a b : R) : bool := if Rlt_dec a b then true else false.
Definition Ris_zero (a : R) : bool := if Req_dec_T a 0 then true else false.
Definition Ris_neg (a : R) : bool := Rltb a 0.

Definition real_gt : xreal -> xreal -> bool := xgt Rltb.
Definition real_add : xreal -> xreal -> xreal := xadd Rplus.
Definition real_mul : xreal -> xreal -> xreal := xmul Rmult Ris_zero Ris_neg.
Definition real_div : xreal -> xreal -> result xreal :=
  xdiv Rdiv IZR Ris_zero Ris_neg.
Definition real_mod : xreal -> xreal -> result xreal :=
  xmod Rminus Rmult Rdiv IZR Int_part Ris_zero Ris_neg.
Definition real_trunc : xreal -> result Z :=
  xtrunc Ropp Int_part Ris_neg.

Definition to_real (f : pyfloat) : xreal :=
  match f with
  | Finite q => Finite (Q2R q)
  | Inf s => Inf s
  | NaN => NaN
  end.

(** ** Python operators on numbers

    An int and a float meet as floats, anything and a [PyReal] as reals.  A
    non-numeric operand raises [TypeError]: in every use below the other
    operand is a numeric literal.  (For a [str] on the left, [%] is
    printf-style formatting, which either raises [TypeError] or yields a
    [str] that the next arithmetic operator rejects with [TypeError]; only
    the exception is modelled.) *)

Definition as_real (a : pyobj) : result xreal :=
  match a with
  | PyInt z => Ok (Finite (IZR z))
  | PyFloat f => Ok (to_real f)
  | PyReal x => Ok x
  | _ => Raise TypeError
  end.

Definition promote {T} (a b : pyobj)
    (kZ : Z -> Z -> result T) (kQ : pyfloat -> pyfloat -> result T)
    (kR : xreal -> xreal -> result T) : result T :=
  match a, b with
  | PyInt x, PyInt y => kZ x y
  | PyInt x, PyFloat g => kQ (Finite (inject_Z x)) g
  | PyFloat f, PyInt y => kQ f (Finite (inject_Z y))
  | PyFloat f, PyFloat g => kQ f g
  | _, _ => (x <- as_real a ;; y <- as_real b ;; kR x y)%res
  end.

Definition py_gt (a b : pyobj) : result bool :=
  promote a b
    (fun x y => Ok (y <? x))
    (fun f g => Ok (float_gt f g))
    (fun x y => Ok (real_gt x y)).

Definition py_add (a b : pyobj) : result pyobj :=
  promote a b
    (fun x y => Ok (PyInt (x + y)))
    (fun f g => Ok (PyFloat (float_add f g)))
    (fun x y => Ok (PyReal (real_add x y))).

Definition py_mul (a b : pyobj) : result pyobj :=
  promote a b
    (fun x y => Ok (PyInt (x * y)))
    (fun f g => Ok (PyFloat (float_mul f g)))
    (fun x y => Ok (PyReal (real_mul x y))).

Definition py_truediv (a b : pyobj) : result pyobj :=
  promote a b
    (fun x y => (r <- float_div (Finite (inject_Z x)) (Finite (inject_Z y)) ;;
                 Ok (PyFloat r))%res)
    (fun f g => (r <- float_div f g ;; Ok (PyFloat r))%res)
    (fun x y => (r <- real_div x y ;; Ok (PyReal r))%res).

Definition py_mod (a b : pyobj) : result pyobj :=
  promote a b
    (fun x y => if y =? 0 then Raise ZeroDivisionError
                else Ok (PyInt (x mod y)))
    (fun f g => (r <- float_mod f g ;; Ok (PyFloat r))%res)
    (fun x y => (r <- real_mod x y ;; Ok (PyReal r))%res).

(** [int(x)] on a number. *)
Definition py_int (a : pyobj) : result Z :=
  match a with
  | PyInt z => Ok z
  | PyFloat f => float_trunc f
  | PyReal x => real_trunc x
  | _ => Raise TypeError
  end.

(** [l[i]] on a list: a negative index counts from the end. *)
Definition py_index {A} (l : list A) (i : pyobj) : result A :=
  match i with
  | PyInt z =>
      let n := Z.of_nat (List.length l) in
      let j := if z <? 0 then z + n else z in
      if (0 <=? j) && (j <? n) then
        match nth_error l (Z.to_nat j) with
        | Some x => Ok x
        | None => Raise IndexError
        end
      else Raise IndexError
  | _ => Raise TypeError
  end.

(** ** [math] and [numpy] functions, over the reals *)

Definition radians (x : xreal) : xreal :=
  match x with
  | Finite a => Finite (a * (PI / 180))%R
  | Inf s => Inf s
  | NaN => NaN
  end.

(** [math.radians(d)] *)
Definition math_radians (d : pyobj) : result pyobj :=
  (x <- as_real d ;; Ok (PyReal (radians x)))%res.

(** [math.sin(x)], [math.cos(x)]: an infinite argument is a domain error. *)
Definition math_trig (f : R -> R) (x : pyobj) : result pyobj :=
  (r <- as_real x ;;
   match r with
   | Finite a => Ok (PyReal (Finite (f a)))
   | NaN => Ok (PyReal NaN)
   | Inf _ => Raise ValueError
   end)%res.
Definition math_sin : pyobj -> result pyobj := math_trig sin.
Definition math_cos : pyobj -> result pyobj := math_trig cos.

(** [np.radians], [np.sin], [np.cos] on one element: an infinite argument
    gives NaN. *)
Definition np_radians (d : pyobj) : result pyobj :=
  (x <- as_real d ;; Ok (PyReal (radians x)))%res.
Definition np_trig (f : R -> R) (x : pyobj) : result pyobj :=
  (r <- as_real x ;;
   match r with
   | Finite a => Ok (PyReal (Finite (f a)))
   | _ => Ok (PyReal NaN)
   end)%res.
Definition np_sin : pyobj -> result pyobj := np_trig sin.
Definition np_cos : pyobj -> result pyobj := np_trig cos.

Definition rgb (r g b : Z) : pyobj := PyList [PyInt r; PyInt g; PyInt b].
Definition rgbf (r g b : Q) : pyobj :=
  PyTuple [PyFloat (Finite r); PyFloat (Finite g); PyFloat (Finite b)].
Definition pyfloat_lit (q : Q) : pyobj := PyFloat (Finite q).

(** ** A miniature pandas

    A frame is its row labels and its columns, each column the list of its
    cells.  A frame lives in a store; a Python variable holds its address. *)

Record DataFrame : Type := {
  index : list Z;
  columns : list (string * list pyobj)
}.

Definition day_ns : Z := 86400000000000.

(** [Timestamp.date()], as a day number *)
Definition ts_date (t : Z) : Z := t / day_ns.

(** [pd.to_datetime(d)] for a date [d]: midnight of that day *)
Definition to_datetime (d : Z) : Z := d * day_ns.

Fixpoint lookup (name : string) (cols : list (string * list pyobj))
  : option (list pyobj) :=
  match cols with
  | [] => None
  | (n, c) :: rest => if String.eqb n name then Some c else lookup name rest
  end.

(** [frame[name]] *)
Definition getitem (frame : DataFrame) (name : string)
  : result (list pyobj) :=
  match lookup name (columns frame) with
  | Some c => Ok c
  | None => Raise KeyError
  end.

(** [series.dt.date]: only for a datetime series; NaT stays NaT *)
Definition dt_date (series : list pyobj) : result (list (option Z)) :=
  rmap (fun c => match c with
                 | PyTimestamp t => Ok (option_map ts_date t)
                 | _ => Raise AttributeError
                 end) series.

(** [dates == d] for a date [d] *)
Definition eq_date (dates : list (option Z)) (d : Z) : list bool :=
  map (fun x => match x with Some d' => d' =? d | None => false end) dates.

(** [series == t] for a timestamp [t] *)
Definition eq_timestamp (series : list pyobj) (t : Z) : list bool :=
  map (fun c => match c with
                | PyTimestamp (Some t') => t' =? t
                | _ => false
                end) series.

Fixpoint select {A} (mask : list bool) (l : list A) : list A :=
  match mask, l with
  | b :: mask', x :: l' =>
      if b then x :: select mask' l' else select mask' l'
  | _, _ => []
  end.

(** [frame[mask]]: a new frame with the rows where the mask is true *)
Definition getitem_mask (frame : DataFrame) (mask : list bool) : DataFrame :=
  {| index := select mask (index frame);
     columns := map (fun nc => (fst nc, select mask (snd nc)))
                    (columns frame) |}.

(** [frame[[name; ...]]] *)
Definition getitem_cols (frame : DataFrame) (names : list string)
  : result DataFrame :=
  (cols <- rmap (fun n => c <- getitem frame n ;; Ok (n, c)) names ;;
   Ok {| index := index frame; columns := cols |})%res.

(** [frame.reset_index(drop=True)] *)
Definition reset_index (frame : DataFrame) : DataFrame :=
  {| index := map Z.of_nat (seq 0 (List.length (index frame)));
     columns := columns frame |}.

(** [frame.empty]: some axis has length 0 *)
Definition empty (frame : DataFrame) : bool :=
  (Nat.eqb (List.length (index frame)) 0)
  || (Nat.eqb (List.length (columns frame)) 0).

Fixpoint set_column (name : string) (cells : list pyobj)
    (cols : list (string * list pyobj)) : list (string * list pyobj) :=
  match cols with
  | [] => [(name, cells)]
  | (n, c) :: rest =>
      if String.eqb n name then (n, cells) :: rest
      else (n, c) :: set_column name cells rest
  end.

Fixpoint rzip2 (f : pyobj -> pyobj -> result pyobj) (a b : list pyobj)
  : result (list pyobj) :=
  match a, b with
  | x :: a', y :: b' =>
      (z <- f x y ;; zs <- rzip2 f a' b' ;; Ok (z :: zs))%res
  | _, _ => Ok []
  end.

Fixpoint rzip3 (f : pyobj -> pyobj -> pyobj -> result pyobj)
    (a b c : list pyobj) : result (list pyobj) :=
  match a, b, c with
  | x :: a', y :: b', z :: c' =>
      (w <- f x y z ;; ws <- rzip3 f a' b' c' ;; Ok (w :: ws))%res
  | _, _, _ => Ok []
  end.

Definition is_number (cell : pyobj) : bool :=
  match cell with
  | PyInt _ | PyFloat _ | PyReal _ => true
  | _ => false
  end.

Definition is_timestamp (cell : pyobj) : bool :=
  match cell with
  | PyTimestamp _ => true
  | _ => false
  end.

(** A missing cell: [None], NaN or NaT. *)
Definition is_missing (cell : pyobj) : bool :=
  match cell with
  | PyNone | PyFloat NaN | PyReal NaN | PyTimestamp None => true
  | _ => false
  end.

(** The cells of a series that are not missing. *)
Definition present (series : list pyobj) : list pyobj :=
  filter (fun c => negb (is_missing c)) series.

(** The mean of the cells named; its float value is not computed. *)
Inductive average : Type :=
| Mean (cells : list pyobj).

(** [series.mean()]: missing cells are skipped; what is left has to be
    numbers, or timestamps; anything else, a [str] for one, cannot be
    summed. *)
Definition series_mean (series : list pyobj) : result average :=
  if forallb is_number (present series)
     || forallb is_timestamp (present series)
  then Ok (Mean (present series))
  else Raise TypeError.

(** ** What a script does: calls that consume data

    Cosmetic calls (titles, axis labels, tooltips) are left out. *)

Inductive text : Type :=
| Lit (s : string)
| DataFor (d : Z)          (* f"Data for {selected_date}" *)
| ConditionsOn (d : Z).    (* f"Forest Health and Wind Conditions on ..." *)

Inductive event : Type :=
| Call_ndvi_color (n : pyobj)
| Call_arrow_from_direction (deg : pyobj)
| Pdk_Layer (kind : string) (data : DataFrame)
| Pdk_ViewState (latitude longitude : average)
| St_pydeck_chart (layers : list string)
| Plt_scatter (lon lat colors : list pyobj)
| Plt_quiver (lon lat u v : list pyobj)
| St_pyplot
| St_subheader (t : text)
| St_dataframe (data : DataFrame)
| St_write_describe (data : DataFrame)   (* st.write(data.describe()) *)
| St_write (t : text).

Definition addr : Type := nat.

Record state : Type := {
  store : list DataFrame;
  trace : list event
}.

Definition M (A : Type) : Type := state -> result A * state.

Definition ret {A} (a : A) : M A := fun s => (Ok a, s).

Definition bind {A B} (m : M A) (k : A -> M B) : M B :=
  fun s => match m s with
           | (Ok a, s') => k a s'
           | (Raise e, s') => (Raise e, s')
           end.

Definition lift {A} (r : result A) : M A := fun s => (r, s).

Declare Scope M_scope.
Delimit Scope M_scope with M.
Notation "x <- m ;; k" := (bind m (fun x => k))
  (at level 61, m at next level, right associativity) : M_scope.
Notation "m ;; k" := (bind m (fun _ => k))
  (at level 61, right associativity) : M_scope.

Definition emit (e : event) : M unit :=
  fun s => (Ok tt, {| store := store s; trace := trace s ++ [e] |}).

(** A new frame object *)
Definition new (frame : DataFrame) : M addr :=
  fun s => (Ok (List.length (store s)),
            {| store := store s ++ [frame]; trace := trace s |}).

Definition get (a : addr) : M DataFrame :=
  fun s => match nth_error (store s) a with
           | Some frame => (Ok frame, s)
           | None => (Raise NameError, s)
           end.

Fixpoint update {A} (n : nat) (x : A) (l : list A) : list A :=
  match l, n with
  | [], _ => []
  | _ :: l', O => x :: l'
  | y :: l', S n' => y :: update n' x l'
  end.

(** [frame[name] = cells], in place *)
Definition setitem (a : addr) (name : string) (cells : list pyobj) : M unit :=
  fun s =>
    match nth_error (store s) a with
    | Some frame =>
        if Nat.eqb (List.length cells) (List.length (index frame)) then
          (Ok tt,
           {| store := update a {| index := index frame;
                                   columns := set_column name cells
                                                (columns frame) |}
                              (store s);
              trace := trace s |})
        else (Raise ValueError, s)
    | None => (Raise NameError, s)
    end.

(** [frame.copy()] *)
Definition copy (a : addr) : M addr :=
  (frame <- get a ;; new frame)%M.

(** [series.apply(f)], each call of [f] logged with [ev] *)
Fixpoint apply (ev : pyobj -> event) (f : pyobj -> result pyobj)
    (series : list pyobj) : M (list pyobj) :=
  match series with
  | [] => ret []
  | x :: rest =>
      (emit (ev x) ;; y <- lift (f x) ;;
       ys <- apply ev f rest ;; ret (y :: ys))%M
  end.

(** [frame[name]] for the frame at [a] *)
Definition column_of (a : addr) (name : string) : M (list pyobj) :=
  (frame <- get a ;; lift (getitem frame name))%M.

(** The mask [df['date'].dt.date == selected_date] *)
Definition mask_dt_date (df : DataFrame) (selected_date : Z)
  : result (list bool) :=
  (dates <- getitem df "date" ;;
   days <- dt_date dates ;;
   Ok (eq_date days selected_date))%res.

(** ** The scripts

    One module per script.  [run df selected_date] is one rendering pass:
    everything the script does after the data is loaded and the date is
    chosen, on the frame at address [df]. *)

Module App.
(** app.py, lines 39-45 *)
Definition ndvi_color (n : pyobj) : result pyobj :=
  (c1 <- py_gt n (pyfloat_lit 0.6) ;;
   if c1 then Ok (rgb 0 128 0)
   else c2 <- py_gt n (pyfloat_lit 0.4) ;;
        if c2 then Ok (rgb 255 165 0)
        else Ok (rgb 255 0 0))%res.

(** line 33 *)
Definition filtered (df : DataFrame) (selected_date : Z)
  : result DataFrame :=
  (mask <- mask_dt_date df selected_date ;; Ok (getitem_mask df mask))%res.

(** lines 33-78 *)
Definition run (df : addr) (selected_date : Z) : M unit :=
  (data <- get df ;;
   sub <- lift (filtered data selected_date) ;;
   filtered <- new sub ;;
   emit (St_subheader (DataFor selected_date)) ;;
   f <- get filtered ;;
   tbl <- lift (getitem_cols f
            ["lat"; "lon"; "date"; "NDVI"; "NDWI"; "EVI"]%string) ;;
   emit (St_dataframe (reset_index tbl)) ;;
   f <- get filtered ;;
   if negb (empty f) then
     filtered <- copy filtered ;;
     ndvi <- column_of filtered "NDVI" ;;
     color <- apply Call_ndvi_color ndvi_color ndvi ;;
     setitem filtered "color" color ;;
     f <- get filtered ;;
     emit (Pdk_Layer "ScatterplotLayer" f) ;;
     lat <- column_of filtered "lat" ;;
     latitude <- lift (series_mean lat) ;;
     lon <- column_of filtered "lon" ;;
     longitude <- lift (series_mean lon) ;;
     emit (Pdk_ViewState latitude longitude) ;;
     emit (St_pydeck_chart ["ScatterplotLayer"]%string) ;;
     emit (St_subheader (Lit "Summary Statistics")) ;;
     veg <- lift (getitem_cols f ["NDVI"; "NDWI"; "EVI"]%string) ;;
     emit (St_write_describe veg)
   else emit (St_write (Lit "No data available for the selected date.")))%M.
End App.

Module AppWeather.
(** app_weather.py, lines 50-56 *)
Definition ndvi_color (n : pyobj) : result pyobj :=
  (c1 <- py_gt n (pyfloat_lit 0.6) ;;
   if c1 then Ok (rgb 0 128 0)
   else c2 <- py_gt n (pyfloat_lit 0.4) ;;
        if c2 then Ok (rgb 255 165 0)
        else Ok (rgb 255 0 0))%res.

(** line 40 *)
Definition filtered (df : DataFrame) (selected_date : Z)
  : result DataFrame :=
  (mask <- mask_dt_date df selected_date ;; Ok (getitem_mask df mask))%res.

(** lines 40-111 *)
Definition run (df : addr) (selected_date : Z) : M unit :=
  (data <- get df ;;
   sub <- lift (filtered data selected_date) ;;
   filtered <- new sub ;;
   emit (St_subheader (DataFor selected_date)) ;;
   f <- get filtered ;;
   tbl <- lift (getitem_cols f
            ["lat"; "lon"; "date"; "NDVI"; "NDWI"; "EVI"; "Temperature";
             "Rainfall"; "WindSpeed"]%string) ;;
   emit (St_dataframe (reset_index tbl)) ;;
   f <- get filtered ;;
   if negb (empty f) then
     filtered <- copy filtered ;;
     ndvi <- column_of filtered "NDVI" ;;
     color <- apply Call_ndvi_color ndvi_color ndvi ;;
     setitem filtered "color" color ;;
     f <- get filtered ;;
     emit (Pdk_Layer "ScatterplotLayer" f) ;;
     lat <- column_of filtered "lat" ;;
     latitude <- lift (series_mean lat) ;;
     lon <- column_of filtered "lon" ;;
     longitude <- lift (series_mean lon) ;;
     emit (Pdk_ViewState latitude longitude) ;;
     emit (St_pydeck_chart ["ScatterplotLayer"]%string) ;;
     emit (St_subheader (Lit "Vegetation Statistics")) ;;
     veg <- lift (getitem_cols f ["NDVI"; "NDWI"; "EVI"]%string) ;;
     emit (St_write_describe veg) ;;
     emit (St_subheader (Lit "Weather Statistics")) ;;
     wth <- lift (getitem_cols f
              ["Temperature"; "Rainfall"; "WindSpeed"]%string) ;;
     emit (St_write_describe wth)
   else emit (St_write (Lit "No data available for the selected date.")))%M.
End AppWeather.

Module AppWind.
(** app_wind.py, lines 36-42 *)
Definition ndvi_color (n : pyobj) : result pyobj :=
  (c1 <- py_gt n (pyfloat_lit 0.6) ;;
   if c1 then Ok (rgb 0 128 0)
   else c2 <- py_gt n (pyfloat_lit 0.4) ;;
        if c2 then Ok (rgb 255 165 0)
        else Ok (rgb 255 0 0))%res.

(** line 48 *)
Definition scale : pyobj := pyfloat_lit 0.0005.

(** line 50, one element: [math.radians(d)] *)
Definition theta (d : pyobj) : result pyobj := math_radians d.

(** line 51, one element:
    [lon + WindSpeed * scale * math.sin(theta)] *)
Definition end_lon (scale lon WindSpeed theta : pyobj) : result pyobj :=
  (p <- py_mul WindSpeed scale ;;
   s <- math_sin theta ;;
   dx <- py_mul p s ;;
   py_add lon dx)%res.

(** line 52, one element:
    [lat + WindSpeed * scale * math.cos(theta)] *)
Definition end_lat (scale lat WindSpeed theta : pyobj) : result pyobj :=
  (p <- py_mul WindSpeed scale ;;
   c <- math_cos theta ;;
   dy <- py_mul p c ;;
   py_add lat dy)%res.

(** line 33 *)
Definition filtered (df : DataFrame) (selected_date : Z)
  : result DataFrame :=
  (mask <- mask_dt_date df selected_date ;; Ok (getitem_mask df mask))%res.

(** lines 33-122 *)
Definition run (df : addr) (selected_date : Z) : M unit :=
  (data <- get df ;;
   sub <- lift (filtered data selected_date) ;;
   filtered <- new sub ;;
   f <- get filtered ;;
   if negb (empty f) then
     filtered <- copy filtered ;;
     ndvi <- column_of filtered "NDVI" ;;
     color <- apply Call_ndvi_color ndvi_color ndvi ;;
     setitem filtered "color" color ;;
     wd <- column_of filtered "WindDirection" ;;
     th <- lift (rmap theta wd) ;;
     setitem filtered "theta" th ;;
     lon <- column_of filtered "lon" ;;
     ws <- column_of filtered "WindSpeed" ;;
     th <- column_of filtered "theta" ;;
     elon <- lift (rzip3 (end_lon scale) lon ws th) ;;
     setitem filtered "end_lon" elon ;;
     lat <- column_of filtered "lat" ;;
     ws <- column_of filtered "WindSpeed" ;;
     th <- column_of filtered "theta" ;;
     elat <- lift (rzip3 (end_lat scale) lat ws th) ;;
     setitem filtered "end_lat" elat ;;
     f <- get filtered ;;
     emit (Pdk_Layer "ScatterplotLayer" f) ;;
     emit (Pdk_Layer "LineLayer" f) ;;
     lat <- column_of filtered "lat" ;;
     latitude <- lift (series_mean lat) ;;
     lon <- column_of filtered "lon" ;;
     longitude <- lift (series_mean lon) ;;
     emit (Pdk_ViewState latitude longitude) ;;
     emit (St_pydeck_chart ["ScatterplotLayer"; "LineLayer"]%string) ;;
     emit (St_subheader (DataFor selected_date)) ;;
     tbl <- lift (getitem_cols f
              ["lat"; "lon"; "date"; "NDVI"; "NDWI"; "EVI"; "Temperature";
               "Rainfall"; "WindSpeed"; "WindDirection"]%string) ;;
     emit (St_dataframe (reset_index tbl)) ;;
     emit (St_subheader (Lit "Vegetation statistics")) ;;
     veg <- lift (getitem_cols f ["NDVI"; "NDWI"; "EVI"]%string) ;;
     emit (St_write_describe veg) ;;
     emit (St_subheader (Lit "Weather statistics")) ;;
     wth <- lift (getitem_cols f
              ["Temperature"; "Rainfall"; "WindSpeed"]%string) ;;
     emit (St_write_describe wth)
   else emit (St_write (Lit "No data available for the selected date.")))%M.
End AppWind.

Module AppWindIcon.
(** app_wind_icon.py, lines 34-40 *)
Definition ndvi_color (n : pyobj) : result pyobj :=
  (c1 <- py_gt n (pyfloat_lit 0.6) ;;
   if c1 then Ok (rgb 0 128 0)
   else c2 <- py_gt n (pyfloat_lit 0.4) ;;
        if c2 then Ok (rgb 255 165 0)
        else Ok (rgb 255 0 0))%res.

(** line 31 *)
Definition filtered (df : DataFrame) (selected_date : Z)
  : result DataFrame :=
  (mask <- mask_dt_date df selected_date ;; Ok (getitem_mask df mask))%res.

(** lines 31-111 *)
Definition run (df : addr) (selected_date : Z) : M unit :=
  (data <- get df ;;
   sub <- lift (filtered data selected_date) ;;
   filtered <- new sub ;;
   f <- get filtered ;;
   if negb (empty f) then
     filtered <- copy filtered ;;
     ndvi <- column_of filtered "NDVI" ;;
     color <- apply Call_ndvi_color ndvi_color ndvi ;;
     setitem filtered "color" color ;;
     f <- get filtered ;;
     setitem filtered "icon_data"
       (repeat (PyStr "arrow") (List.length (index f))) ;;
     f <- get filtered ;;
     emit (Pdk_Layer "ScatterplotLayer" f) ;;
     emit (Pdk_Layer "IconLayer" f) ;;
     lat <- column_of filtered "lat" ;;
     latitude <- lift (series_mean lat) ;;
     lon <- column_of filtered "lon" ;;
     longitude <- lift (series_mean lon) ;;
     emit (Pdk_ViewState latitude longitude) ;;
     emit (St_pydeck_chart ["ScatterplotLayer"; "IconLayer"]%string) ;;
     emit (St_subheader (DataFor selected_date)) ;;
     tbl <- lift (getitem_cols f
              ["lat"; "lon"; "date"; "NDVI"; "NDWI"; "EVI"; "Temperature";
               "Rainfall"; "WindSpeed"; "WindDirection"]%string) ;;
     emit (St_dataframe (reset_index tbl)) ;;
     emit (St_subheader (Lit "Vegetation statistics")) ;;
     veg <- lift (getitem_cols f ["NDVI"; "NDWI"; "EVI"]%string) ;;
     emit (St_write_describe veg) ;;
     emit (St_subheader (Lit "Weather statistics")) ;;
     wth <- lift (getitem_cols f
              ["Temperature"; "Rainfall"; "WindSpeed"]%string) ;;
     emit (St_write_describe wth)
   else emit (St_write (Lit "No data available for the selected date.")))%M.
End AppWindIcon.

Module AppWindText.
(** app_wind_text.py, lines 31-37 *)
Definition ndvi_color (n : pyobj) : result pyobj :=
  (c1 <- py_gt n (pyfloat_lit 0.6) ;;
   if c1 then Ok (rgb 0 128 0)
   else c2 <- py_gt n (pyfloat_lit 0.4) ;;
        if c2 then Ok (rgb 255 165 0)
        else Ok (rgb 255 0 0))%res.

(** line 41 *)
Definition dirs : list string :=
  ["↑"; "↗"; "→"; "↘"; "↓"; "↙"; "←"; "↖"]%string.

(** lines 43-44 once [deg % 360] is known: [m] stands for it *)
Definition arrow_of_remainder (m : pyobj) : result string :=
  (q <- py_truediv m (pyfloat_lit 45.0) ;;
   s <- py_add q (pyfloat_lit 0.5) ;;
   i <- py_int s ;;
   idx <- py_mod (PyInt i) (PyInt 8) ;;
   py_index dirs idx)%res.

(** lines 43-44, the body of the [try] block *)
Definition arrow_try (deg : pyobj) : result string :=
  (m <- py_mod deg (PyInt 360) ;; arrow_of_remainder m)%res.

(** lines 40-46: the bare [except] turns every exception into [''] *)
Definition arrow_from_direction (deg : pyobj) : string :=
  match arrow_try deg with
  | Ok glyph => glyph
  | Raise _ => EmptyString
  end.

(** line 53, one element: [WindSpeed * 2 + 10] *)
Definition text_size (WindSpeed : pyobj) : result pyobj :=
  (p <- py_mul WindSpeed (PyInt 2) ;; py_add p (PyInt 10))%res.

(** line 29 *)
Definition filtered (df : DataFrame) (selected_date : Z)
  : result DataFrame :=
  (mask <- mask_dt_date df selected_date ;; Ok (getitem_mask df mask))%res.

(** lines 29-106 *)
Definition run (df : addr) (selected_date : Z) : M unit :=
  (data <- get df ;;
   sub <- lift (filtered data selected_date) ;;
   filtered <- new sub ;;
   f <- get filtered ;;
   if negb (empty f) then
     filtered <- copy filtered ;;
     ndvi <- column_of filtered "NDVI" ;;
     color <- apply Call_ndvi_color ndvi_color ndvi ;;
     setitem filtered "color" color ;;
     wd <- column_of filtered "WindDirection" ;;
     arrows <- apply Call_arrow_from_direction
                 (fun d => Ok (PyStr (arrow_from_direction d))) wd ;;
     setitem filtered "arrow_char" arrows ;;
     ws <- column_of filtered "WindSpeed" ;;
     sizes <- lift (rmap text_size ws) ;;
     setitem filtered "text_size" sizes ;;
     f <- get filtered ;;
     emit (Pdk_Layer "ScatterplotLayer" f) ;;
     emit (Pdk_Layer "TextLayer" f) ;;
     lat <- column_of filtered "lat" ;;
     latitude <- lift (series_mean lat) ;;
     lon <- column_of filtered "lon" ;;
     longitude <- lift (series_mean lon) ;;
     emit (Pdk_ViewState latitude longitude) ;;
     emit (St_pydeck_chart ["ScatterplotLayer"; "TextLayer"]%string) ;;
     emit (St_subheader (DataFor selected_date)) ;;
     tbl <- lift (getitem_cols f
              ["lat"; "lon"; "date"; "NDVI"; "NDWI"; "EVI"; "Temperature";
               "Rainfall"; "WindSpeed"; "WindDirection"]%string) ;;
     emit (St_dataframe (reset_index tbl)) ;;
     emit (St_subheader (Lit "Vegetation statistics")) ;;
     veg <- lift (getitem_cols f ["NDVI"; "NDWI"; "EVI"]%string) ;;
     emit (St_write_describe veg) ;;
     emit (St_subheader (Lit "Weather statistics")) ;;
     wth <- lift (getitem_cols f
              ["Temperature"; "Rainfall"; "WindSpeed"]%string) ;;
     emit (St_write_describe wth)
   else emit (St_write (Lit "No data available for the selected date.")))%M.
End AppWindText.

Module AppWindStatic.
(** app_wind_static.py, lines 39-45: matplotlib colours, floats in 0..1 *)
Definition ndvi_color (value : pyobj) : result pyobj :=
  (c1 <- py_gt value (pyfloat_lit 0.6) ;;
   if c1 then Ok (rgbf 0.0 0.8 0.0)
   else c2 <- py_gt value (pyfloat_lit 0.4) ;;
        if c2 then Ok (rgbf 1.0 0.65 0.0)
        else Ok (rgbf 1.0 0.0 0.0))%res.

(** line 50, one element: [np.radians(WindDirection)] *)
Definition theta (d : pyobj) : result pyobj := np_radians d.

(** line 51, one element: [WindSpeed * np.cos(theta)] *)
Definition u (WindSpeed theta : pyobj) : result pyobj :=
  (c <- np_cos theta ;; py_mul WindSpeed c)%res.

(** line 52, one element: [WindSpeed * np.sin(theta)] *)
Definition v (WindSpeed theta : pyobj) : result pyobj :=
  (s <- np_sin theta ;; py_mul WindSpeed s)%res.

(** line 33: [df[df["date"] == pd.to_datetime(selected_date)]] *)
Definition filtered (df : DataFrame) (selected_date : Z)
  : result DataFrame :=
  (dates <- getitem df "date" ;;
   Ok (getitem_mask df
         (eq_timestamp dates (to_datetime selected_date))))%res.

(** lines 33-92 *)
Definition run (df : addr) (selected_date : Z) : M unit :=
  (data <- get df ;;
   sub <- lift (filtered data selected_date) ;;
   filtered <- new sub ;;
   f <- get filtered ;;
   if empty f then
     emit (St_write (Lit "No data available for selected date."))
   else
     ndvi <- column_of filtered "NDVI" ;;
     colors <- apply Call_ndvi_color ndvi_color ndvi ;;
     wd <- column_of filtered "WindDirection" ;;
     th <- lift (rmap theta wd) ;;
     ws <- column_of filtered "WindSpeed" ;;
     us <- lift (rzip2 u ws th) ;;
     ws <- column_of filtered "WindSpeed" ;;
     vs <- lift (rzip2 v ws th) ;;
     lon <- column_of filtered "lon" ;;
     lat <- column_of filtered "lat" ;;
     emit (Plt_scatter lon lat colors) ;;
     emit (Plt_quiver lon lat us vs) ;;
     emit St_pyplot ;;
     emit (St_subheader (Lit "Data Table")) ;;
     f <- get filtered ;;
     emit (St_dataframe f) ;;
     emit (St_subheader (Lit "Summary Statistics")) ;;
     emit (St_write_describe f))%M.
End AppWindStatic.

Inductive variant : Type :=
| VApp | VWeather | VWind | VWindIcon | VWindText | VWindStatic.

Definition ndvi_color_of (v : variant) : pyobj -> result pyobj :=
  match v with
  | VApp => App.ndvi_color
  | VWeather => AppWeather.ndvi_color
  | VWind => AppWind.ndvi_color
  | VWindIcon => AppWindIcon.ndvi_color
  | VWindText => AppWindText.ndvi_color
  | VWindStatic => AppWindStatic.ndvi_color
  end.

Definition filtered_of (v : variant) : DataFrame -> Z -> result DataFrame :=
  match v with
  | VApp => App.filtered
  | VWeather => AppWeather.filtered
  | VWind => AppWind.filtered
  | VWindIcon => AppWindIcon.filtered
  | VWindText => AppWindText.filtered
  | VWindStatic => AppWindStatic.filtered
  end.

Definition run_of (v : variant) : addr -> Z -> M unit :=
  match v with
  | VApp => App.run
  | VWeather => AppWeather.run
  | VWind => AppWind.run
  | VWindIcon => AppWindIcon.run
  | VWindText => AppWindText.run
  | VWindStatic => AppWindStatic.run
  end.

(** ** The specification's vocabulary *)

Inductive Category : Type := Healthy | Moderate | Stressed.

(** [x > c] and [x <= c] for a float against a rational threshold; NaN is
    on neither side. *)
Definition above (x : pyfloat) (c : Q) : Prop :=
  match x with
  | Finite q => (c < q)%Q
  | Inf negative => negative = false
  | NaN => False
  end.

Definition at_most (x : pyfloat) (c : Q) : Prop :=
  match x with
  | Finite q => (q <= c)%Q
  | Inf negative => negative = true
  | NaN => False
  end.

(** The three threshold cases, as the specification words them. *)
Inductive classifies : pyfloat -> Category -> Prop :=
| classifies_healthy x : above x 0.6 -> classifies x Healthy
| classifies_moderate x :
    above x 0.4 -> at_most x 0.6 -> classifies x Moderate
| classifies_stressed x : at_most x 0.4 -> classifies x Stressed.

(** The colour table of the specification, channels 0..255. *)
Definition display_color (c : Category) : list Z :=
  match c with
  | Healthy => [0; 128; 0]
  | Moderate => [255; 165; 0]
  | Stressed => [255; 0; 0]
  end.

Definition color_object (channels : list Z) : pyobj :=
  PyList (map PyInt channels).

(** What app_wind_static.py returns in the three branches. *)
Definition static_color (c : Category) : pyobj :=
  match c with
  | Healthy => rgbf 0.0 0.8 0.0
  | Moderate => rgbf 1.0 0.65 0.0
  | Stressed => rgbf 1.0 0.0 0.0
  end.

(** The colour each script uses for a category. *)
Definition palette (v : variant) (c : Category) : pyobj :=
  match v with
  | VWindStatic => static_color c
  | _ => color_object (display_color c)
  end.



(** Rounding to the nearest integer, a half going up. *)
Definition round_half_up (q : Q) : Z := Qfloor (q + (1 # 2))%Q.

Definition glyph (i : Z) : string :=
  nth (Z.to_nat i) AppWindText.dirs EmptyString.

(** [r] is the glyph of bucket [i]. *)
Definition glyph_is (r : result string) (i : Z) : bool :=
  match r with
  | Ok s => String.eqb s (glyph i)
  | Raise _ => false
  end.

(** A rational number that is a double. *)
Definition is_double (q : Q) : bool :=
  match round64 q with
  | Finite r => Qeq_bool r q
  | _ => false
  end.

(** The double just below 22.5, 22.5 - 2^-48: Python prints it as
    22.499999999999996. *)
Definition below_22_5 : Q := 6333186975989759 # 281474976710656.

(** A double just below zero, - 2^-70. *)
Definition just_below_0 : Q := - (1 # 1180591620717411303424).

(** 2^-43 degrees *)
Definition rounding_slack : Q := 1 # 8796093022208.

Definition whole_degrees : list Z := map Z.of_nat (seq 0 360).
Definition half_degrees : list Z := map Z.of_nat (seq 0 720).

(** Classification, map or plot construction, descriptive statistics. *)
Definition heavy (e : event) : bool :=
  match e with
  | Call_ndvi_color _ | Call_arrow_from_direction _
  | Pdk_Layer _ _ | Pdk_ViewState _ _ | St_pydeck_chart _
  | Plt_scatter _ _ _ | Plt_quiver _ _ _ _ | St_pyplot
  | St_write_describe _ => true
  | St_subheader _ | St_dataframe _ | St_write _ => false
  end.

(** The sentence each script writes when nothing matches the date. *)
Definition no_data_message (v : variant) : string :=
  match v with
  | VWindStatic => "No data available for selected date."
  | _ => "No data available for the selected date."
  end.

(** The columns a script tabulates before it tests for emptiness. *)
Definition shown_first (v : variant) : list string :=
  match v with
  | VApp => ["lat"; "lon"; "date"; "NDVI"; "NDWI"; "EVI"]
  | VWeather => ["lat"; "lon"; "date"; "NDVI"; "NDWI"; "EVI";
                 "Temperature"; "Rainfall"; "WindSpeed"]
  | _ => []
  end%string.

Definition has_columns (frame : DataFrame) (names : list string) : bool :=
  forallb (fun n => match lookup n (columns frame) with
                    | Some _ => true
                    | None => false
                    end) names.

Definition preal (r : R) : pyobj := PyReal (Finite r).

(** The specification's [wind_vector], map-offset convention: the
    displacement of the end point of app_wind.py from the point itself,
    here taken at the origin. *)
Definition map_offset (scale speed bearing : Q) : result (pyobj * pyobj) :=
  (th <- AppWind.theta (pyfloat_lit bearing) ;;
   dx <- AppWind.end_lon (pyfloat_lit scale) (pyfloat_lit 0)
           (pyfloat_lit speed) th ;;
   dy <- AppWind.end_lat (pyfloat_lit scale) (pyfloat_lit 0)
           (pyfloat_lit speed) th ;;
   Ok (dx, dy))%res.

(** The cartesian-plot convention: the arrow of app_wind_static.py. *)
Definition cartesian (speed bearing : Q) : result (pyobj * pyobj) :=
  (th <- AppWindStatic.theta (pyfloat_lit bearing) ;;
   u <- AppWindStatic.u (pyfloat_lit speed) th ;;
   v <- AppWindStatic.v (pyfloat_lit speed) th ;;
   Ok (u, v))%res.

(** A dataset with one reading, taken on 2025-07-01 (day 20270 of the
    epoch) at 12:00. *)
Definition noon_reading : DataFrame :=
  {| index := [0];
     columns :=
       [("lat", [pyfloat_lit 47.55]);
        ("lon", [pyfloat_lit 12.97]);
        ("date", [PyTimestamp (Some (20270 * day_ns + 12 * 3600000000000))]);
        ("NDVI", [pyfloat_lit 0.7]);
        ("NDWI", [pyfloat_lit 0.1]);
        ("EVI", [pyfloat_lit 0.5]);
        ("Temperature", [pyfloat_lit 21.5]);
        ("Rainfall", [pyfloat_lit 0.0]);
        ("WindSpeed", [pyfloat_lit 3.2]);
        ("WindDirection", [PyInt 180])]%string |}.

(** The frame [noon_reading] without its row. *)
Definition no_reading : DataFrame :=
  {| index := [];
     columns := map (fun nc => (fst nc, [])) (columns noon_reading) |}.

(** A session that has loaded [noon_reading] and rendered nothing yet. *)
Definition loaded : state := {| store := [noon_reading]; trace := [] |}.

(** ** Frames that exist before a pass

    [base] is the store before the pass. *)

(** The store still starts with the frames of [base]. *)
Definition extends (base : list DataFrame) (s : state) : Prop :=
  exists fresh, store s = base ++ fresh.

(** An address handed out after [base] was fixed. *)
Definition fresh_addr (base : list DataFrame) (a : addr) : Prop :=
  (List.length base <= a)%nat.

(** [m] keeps the frames of [base] as they are, and its result
    satisfies [P]. *)
Definition safe {A} (base : list DataFrame) (m : M A) (P : A -> Prop)
  : Prop :=
  forall s, extends base s ->
    extends base (snd (m s)) /\ forall a, fst (m s) = Ok a -> P a.

(** A date cell whose date component is the day [d]. *)
Definition same_day (d : Z) (cell : pyobj) : bool :=
  match cell with
  | PyTimestamp (Some ns) => ts_date ns =? d
  | _ => false
  end.

(** A date cell that is the day [d] at 00:00 exactly. *)
Definition same_day_midnight (d : Z) (cell : pyobj) : bool :=
  match cell with
  | PyTimestamp (Some ns) => (ts_date ns =? d) && (ns mod day_ns =? 0)
  | _ => false
  end.

(** ** Further vocabulary *)

(** The order of the floats other than NaN. *)
Definition float_le (x y : pyfloat) : Prop :=
  match x, y with
  | NaN, _ | _, NaN => False
  | Finite a, Finite b => (a <= b)%Q
  | Inf negative, Finite _ => negative = true
  | Finite _, Inf negative => negative = false
  | Inf n1, Inf n2 => n1 = true \/ n2 = false
  end.

(** Healthier categories rank higher. *)
Definition rank (c : Category) : Z :=
  match c with
  | Stressed => 0
  | Moderate => 1
  | Healthy => 2
  end.

(** Every column is as long as the index. *)
Definition well_formed (frame : DataFrame) : bool :=
  forallb (fun nc => Nat.eqb (List.length (snd nc))
                             (List.length (index frame)))
          (columns frame).

(** The date cells a script keeps for the day [d]. *)
Definition keeps (v : variant) (d : Z) (cell : pyobj) : bool :=
  match v with
  | VWindStatic => same_day_midnight d cell
  | _ => same_day d cell
  end.

(** A date cell with no time of day: a timestamp at 00:00, or NaT. *)
Definition at_midnight (cell : pyobj) : bool :=
  match cell with
  | PyTimestamp (Some ns) => ns mod day_ns =? 0
  | PyTimestamp None => true
  | _ => false
  end.

(** A dataset of three readings: 2025-07-01 and 2025-07-02 at 00:00, and
    one without a date. *)
Definition three_rows : DataFrame :=
  {| index := [0; 1; 2];
     columns :=
       [("lat", [pyfloat_lit 47.55; pyfloat_lit 47.56; pyfloat_lit 47.57]);
        ("lon", [pyfloat_lit 12.97; pyfloat_lit 12.98; pyfloat_lit 12.99]);
        ("date", [PyTimestamp (Some (20270 * day_ns));
                  PyTimestamp (Some (20271 * day_ns));
                  PyTimestamp None]);
        ("NDVI", [pyfloat_lit 0.72; pyfloat_lit 0.35; PyFloat NaN]);
        ("NDWI", [pyfloat_lit 0.1; pyfloat_lit 0.2; pyfloat_lit 0.3]);
        ("EVI", [pyfloat_lit 0.5; pyfloat_lit 0.4; pyfloat_lit 0.3]);
        ("Temperature", [pyfloat_lit 21.5; pyfloat_lit 19.0; PyFloat NaN]);
        ("Rainfall", [pyfloat_lit 0.0; pyfloat_lit 2.5; pyfloat_lit 0.0]);
        ("WindSpeed", [pyfloat_lit 3.2; pyfloat_lit 5.0; pyfloat_lit 1.0]);
        ("WindDirection", [PyInt 180; PyInt 45; pyfloat_lit 292.5])]%string
  |}.

(** ** The date slider

    [df['date'].min()] and [df['date'].max()] skip NaT and are NaT when no
    date is left; [.date()] keeps the day. *)







(** The frame after [frame[name] = cells]. *)
Definition with_column (frame : DataFrame) (name : string)
    (cells : list pyobj) : DataFrame :=
  {| index := index frame;
     columns := set_column name cells (columns frame) |}.

(** [noon_reading] with a vegetation index that is not a number. *)
Definition unreadable_ndvi : DataFrame :=
  with_column noon_reading "NDVI" [PyStr "low"].

(** [noon_reading] with a latitude that is not a number. *)
Definition unreadable_lat : DataFrame :=
  with_column noon_reading "lat" [PyStr "north"].

(** * Theorems *)

(** ** The classifier *)

Lemma Qltb_lt (a b : Q) : Qltb a b = true <-> (a < b)%Q.
Proof.
  unfold Qltb. rewrite negb_true_iff, <- not_true_iff_false, Qle_bool_iff.
  split; [apply Qnot_le_lt | apply Qlt_not_le].
Qed.

Lemma Qltb_ge (a b : Q) : Qltb a b = false <-> (b <= a)%Q.
Proof.
  unfold Qltb. rewrite negb_false_iff. apply Qle_bool_iff.
Qed.

Lemma float_gt_above (x : pyfloat) (c : Q) :
  float_gt x (Finite c) = true <-> above x c.
Proof.
  destruct x as [q | [|] |]; simpl.
  - apply Qltb_lt.
  - split; discriminate.
  - split; reflexivity.
  - split; [discriminate | contradiction].
Qed.

Lemma float_gt_at_most (x : pyfloat) (c : Q) :
  at_most x c -> float_gt x (Finite c) = false.
Proof.
  destruct x as [q | [|] |]; simpl; intros H;
    try reflexivity; try discriminate; try contradiction.
  now apply Qltb_ge.
Qed.

Lemma ndvi_color_of_branches (v : variant) (x : pyfloat) :
  ndvi_color_of v (PyFloat x) =
  Ok (if float_gt x (Finite 0.6%Q) then palette v Healthy
      else if float_gt x (Finite 0.4%Q) then palette v Moderate
      else palette v Stressed).
Proof.
  destruct v; cbn -[float_gt];
    destruct (float_gt x (Finite 0.6%Q)); cbn -[float_gt];
    destruct (float_gt x (Finite 0.4%Q)); reflexivity.
Qed.

Lemma classifies_color (v : variant) (x : pyfloat) (c : Category) :
  classifies x c -> ndvi_color_of v (PyFloat x) = Ok (palette v c).
Proof.
  intros H. rewrite ndvi_color_of_branches.
  destruct H as [x H | x H1 H2 | x H].
  - apply float_gt_above in H. now rewrite H.
  - apply float_gt_at_most in H2. apply float_gt_above in H1.
    now rewrite H2, H1.
  - assert (H6 : at_most x 0.6).
    { destruct x as [q | [|] |]; simpl in *; try easy.
      eapply Qle_trans; [exact H |]. discriminate. }
    apply float_gt_at_most in H, H6. now rewrite H6, H.
Qed.


Lemma classifies_total (x : pyfloat) :
  x <> NaN -> exists c, classifies x c.
Proof.
  destruct x as [q | [|] |]; intros Hx.
  - destruct (Qlt_le_dec 0.6 q) as [H6 | H6].
    + exists Healthy. now constructor.
    + destruct (Qlt_le_dec 0.4 q) as [H4 | H4].
      * exists Moderate. now constructor.
      * exists Stressed. now constructor.
  - exists Stressed. now constructor.
  - exists Healthy. now constructor.
  - now contradiction Hx.
Qed.



(** C6.  A NaN vegetation index is classified as Stressed and no error is
    raised: every comparison of NaN with a threshold is false, so the
    classifier falls through to its last branch. *)
Theorem ndvi_color_nan (v : variant) :
  (forall c : pyfloat, py_gt (PyFloat NaN) (PyFloat c) = Ok false) /\
  ndvi_color_of v (PyFloat NaN) = Ok (palette v Stressed).
Proof.
  split; [reflexivity | destruct v; reflexivity].
Qed.




(** ** Rounding to binary64 *)

Lemma rne_comp (x y : Q) : (x == y)%Q -> rne x = rne y.
Proof.
  intros E. unfold rne. rewrite (Qfloor_comp _ _ E).
  assert (C : ((x - inject_Z (Qfloor y)) ?= (1 # 2))%Q =
              ((y - inject_Z (Qfloor y)) ?= (1 # 2))%Q).
  { apply Qcompare_comp; [now rewrite E | reflexivity]. }
  now rewrite C.
Qed.

Lemma rne_cases (y : Q) : rne y = Qfloor y \/
  (rne y = Qfloor y + 1 /\ (inject_Z (Qfloor y) + (1 # 2) <= y)%Q).
Proof.
  unfold rne.
  destruct (Qcompare_spec (y - inject_Z (Qfloor y)) (1 # 2)) as [E | L | G].
  - destruct (Z.even (Qfloor y)); [now left |].
    right. split; [reflexivity |]. Lqa.lra.
  - now left.
  - right. split; [reflexivity |]. Lqa.lra.
Qed.

Lemma rne_le_int (y : Q) (N : Z) : (y <= inject_Z N)%Q -> rne y <= N.
Proof.
  intros H. pose proof (Qfloor_le y) as Fl.
  destruct (rne_cases y) as [-> | [-> Hh]].
  - rewrite Zle_Qle. Lqa.lra.
  - assert (L : (inject_Z (Qfloor y) < inject_Z N)%Q) by Lqa.lra.
    rewrite <- Zlt_Qlt in L. lia.
Qed.

Lemma rne_ge_int (y : Q) (N : Z) : (inject_Z N <= y)%Q -> N <= rne y.
Proof.
  intros H. pose proof (Qlt_floor y) as Fh.
  assert (L : (inject_Z N < inject_Z (Qfloor y + 1))%Q) by Lqa.lra.
  rewrite <- Zlt_Qlt in L.
  destruct (rne_cases y) as [-> | [-> _]]; lia.
Qed.

Lemma rne_near (y : Q) :
  (inject_Z (rne y) - (1 # 2) <= y)%Q /\ (y <= inject_Z (rne y) + (1 # 2))%Q.
Proof.
  pose proof (Qfloor_le y) as Fl. pose proof (Qlt_floor y) as Fh.
  rewrite inject_Z_plus in Fh. change (inject_Z 1) with 1%Q in Fh.
  unfold rne.
  destruct (Qcompare_spec (y - inject_Z (Qfloor y)) (1 # 2)) as [E | L | G].
  - destruct (Z.even (Qfloor y)).
    + split; Lqa.lra.
    + rewrite inject_Z_plus. change (inject_Z 1) with 1%Q. split; Lqa.lra.
  - split; Lqa.lra.
  - rewrite inject_Z_plus. change (inject_Z 1) with 1%Q. split; Lqa.lra.
Qed.

Lemma pow2_pos (k : Z) : 0 <= k -> 0 < 2 ^ k.
Proof. intros. apply Z.pow_pos_nonneg; lia. Qed.

Lemma ilog2_lt (a : Q) (k : Z) :
  (0 < a)%Q -> 0 <= k -> (a < inject_Z (2 ^ k))%Q -> ilog2 a < k.
Proof.
  intros Ha Hk Hlt. unfold ilog2.
  destruct a as [n d]. cbn [Qnum Qden].
  assert (Hn : 0 < n).
  { unfold Qlt in Ha. cbn in Ha. lia. }
  set (L := Z.log2 n). set (D := Z.log2 (Z.pos d)).
  assert (HL : 2 ^ L <= n < 2 ^ (L + 1)).
  { unfold L. replace (L + 1) with (Z.succ (Z.log2 n)) by (unfold L; lia).
    apply Z.log2_spec. lia. }
  assert (HD : 2 ^ D <= Z.pos d < 2 ^ (D + 1)).
  { unfold D.
    replace (D + 1) with (Z.succ (Z.log2 (Z.pos d))) by (unfold D; lia).
    apply Z.log2_spec. lia. }
  assert (HL0 : 0 <= L) by apply Z.log2_nonneg.
  assert (HD0 : 0 <= D) by apply Z.log2_nonneg.
  assert (Hnd : n < 2 ^ k * Z.pos d).
  { unfold Qlt, inject_Z in Hlt. cbn [Qnum Qden] in Hlt. lia. }
  destruct (Qle_bool (scale2 1 (L - D)) (n # d)) eqn:B.
  - destruct (Z_lt_le_dec (L - D) k) as [|Hge]; [assumption | exfalso].
    apply Qle_bool_iff in B. unfold scale2 in B.
    assert (Z0 : (0 <=? L - D) = true) by (apply Z.leb_le; lia).
    rewrite Z0, Qmult_1_l in B. unfold Qle, inject_Z in B.
    cbn [Qnum Qden] in B.
    assert (M : 2 ^ k <= 2 ^ (L - D)) by (apply Z.pow_le_mono_r; lia).
    assert (P : 0 < 2 ^ (L - D)) by (apply pow2_pos; lia).
    nia.
  - destruct (Z_lt_le_dec (L - D - 1) k) as [|Hge]; [assumption | exfalso].
    assert (M : 2 ^ k <= 2 ^ (L - D - 1)) by (apply Z.pow_le_mono_r; lia).
    assert (E1 : 2 ^ (L - D - 1) * 2 ^ (D + 1) = 2 ^ L).
    { rewrite <- Z.pow_add_r by lia. f_equal. lia. }
    assert (P : 0 < 2 ^ (L - D - 1)) by (apply pow2_pos; lia).
    assert (Pk : 0 < 2 ^ k) by (apply pow2_pos; lia).
    nia.
Qed.

Lemma inject_Z_pow2_pos (j : Z) : 0 <= j -> (0 < inject_Z (2 ^ j))%Q.
Proof.
  intros H. change 0%Q with (inject_Z 0). rewrite <- Zlt_Qlt.
  now apply pow2_pos.
Qed.

Lemma scale2_down (a : Q) (e : Z) :
  e <= 0 -> (scale2 a e == a / inject_Z (2 ^ (- e)))%Q.
Proof.
  intros H. unfold scale2. destruct (0 <=? e) eqn:B; [| reflexivity].
  apply Z.leb_le in B. replace e with 0 by lia.
  change (inject_Z (2 ^ 0)) with 1%Q. change (inject_Z (2 ^ (- 0))) with 1%Q.
  field.
Qed.

Lemma scale2_up (a : Q) (k : Z) :
  0 <= k -> scale2 a k = (a * inject_Z (2 ^ k))%Q.
Proof.
  intros H. unfold scale2. apply Z.leb_le in H. now rewrite H.
Qed.

Lemma Qabs_nonneg_eq (q : Q) : (0 <= q)%Q -> Qabs q = q.
Proof.
  destruct q as [n d]. unfold Qle. cbn [Qnum Qden]. intros H.
  unfold Qabs. f_equal. apply Z.abs_eq. lia.
Qed.

Lemma round64_comp (x y : Q) : (x == y)%Q -> round64 x = round64 y.
Proof.
  intros E. unfold round64. now rewrite (Qred_complete x y E).
Qed.

(** Rounding a number in [[0, 2 ^ k)], [k <= 53]: the nearest multiple of
    [1 / 2 ^ j] for some [j >= 53 - k]. *)
Lemma round64_spec (x : Q) (k : Z) :
  (0 <= x)%Q -> (x < inject_Z (2 ^ k))%Q -> 0 <= k <= 53 ->
  exists (r : Q) (j : Z),
    round64 x = Finite r /\ 53 - k <= j /\
    (r == inject_Z (rne (x * inject_Z (2 ^ j))) / inject_Z (2 ^ j))%Q.
Proof.
  intros Hx Hlt Hk. unfold round64.
  pose proof (Qred_correct x) as Er.
  remember (Qred x) as q eqn:Eq. clear Eq.
  destruct (Qeq_bool q 0) eqn:Z.
  - apply Qeq_bool_iff in Z.
    exists 0%Q, (53 - k). split; [reflexivity |]. split; [lia |].
    rewrite (rne_comp _ 0).
    + change (rne 0) with 0. unfold Qdiv. ring.
    + rewrite <- Er, Z. ring.
  - assert (Hq : (0 < q)%Q).
    { apply Qeq_bool_neq in Z. rewrite <- Er in Hx.
      destruct (Qle_lt_or_eq _ _ Hx) as [L | E]; [exact L |].
      exfalso. apply Z. now symmetry. }
    rewrite (Qabs_nonneg_eq q) by now apply Qlt_le_weak.
    assert (Hl : ilog2 q < k).
    { apply ilog2_lt; [assumption | lia | now rewrite Er]. }
    remember (Z.max (ilog2 q - 52) (-1074)) as e eqn:Ee.
    assert (He : e <= k - 53) by lia.
    clear Ee Hl.
    rewrite (scale2_up q (- e)) by lia.
    set (J := inject_Z (2 ^ (- e))).
    assert (HJ : (0 < J)%Q) by (apply inject_Z_pow2_pos; lia).
    set (m := rne (q * J)).
    assert (Hm : m <= 2 ^ k * 2 ^ (- e)).
    { apply rne_le_int. rewrite inject_Z_mult. fold J.
      apply Qmult_le_compat_r; [| now apply Qlt_le_weak].
      rewrite Er. now apply Qlt_le_weak. }
    set (r := Qred (scale2 (inject_Z m) e)).
    assert (Hr : (r == inject_Z m / J)%Q).
    { unfold r. rewrite Qred_correct. apply scale2_down. lia. }
    assert (Hb : (r <= inject_Z (2 ^ k))%Q).
    { rewrite Hr. apply Qle_shift_div_r; [assumption |].
      unfold J. rewrite <- inject_Z_mult, <- Zle_Qle. exact Hm. }
    assert (Hk53 : (inject_Z (2 ^ k) < inject_Z (2 ^ 1024))%Q).
    { rewrite <- Zlt_Qlt. apply Z.pow_lt_mono_r; lia. }
    destruct (Qle_bool (inject_Z (2 ^ 1024)) r) eqn:O.
    + exfalso. apply Qle_bool_iff in O.
      apply (Qlt_irrefl r).
      eapply Qle_lt_trans; [exact Hb |].
      eapply Qlt_le_trans; [exact Hk53 | exact O].
    + assert (N : Qltb q 0 = false) by (apply Qltb_ge; now apply Qlt_le_weak).
      rewrite N. exists r, (- e). split; [reflexivity |]. split; [lia |].
      rewrite Hr. fold J. unfold m.
      rewrite (rne_comp (x * J) (q * J)) by now rewrite Er.
      reflexivity.
Qed.

(** What rounding does to a number in [[0, 2 ^ k)], [k <= 53]: the result
    is finite, it stays on the same side of every integer, and it is off by
    at most [1 / 2 ^ (54 - k)]. *)
Lemma round64_small (x : Q) (k : Z) :
  (0 <= x)%Q -> (x < inject_Z (2 ^ k))%Q -> 0 <= k <= 53 ->
  exists r : Q,
    round64 x = Finite r /\
    (forall N : Z, (x <= inject_Z N)%Q -> (r <= inject_Z N)%Q) /\
    (forall N : Z, (inject_Z N <= x)%Q -> (inject_Z N <= r)%Q) /\
    (x - (1 # 2) / inject_Z (2 ^ (53 - k)) <= r)%Q /\
    (r <= x + (1 # 2) / inject_Z (2 ^ (53 - k)))%Q.
Proof.
  intros Hx Hlt Hk.
  destruct (round64_spec x k Hx Hlt Hk) as (r & j & E & Hj & Hr).
  exists r. split; [exact E |].
  set (J := inject_Z (2 ^ j)) in *.
  assert (HJ : (0 < J)%Q) by (apply inject_Z_pow2_pos; lia).
  set (K := inject_Z (2 ^ (53 - k))).
  assert (HK : (0 < K)%Q) by (apply inject_Z_pow2_pos; lia).
  assert (HKJ : (K <= J)%Q).
  { unfold K, J. rewrite <- Zle_Qle. apply Z.pow_le_mono_r; lia. }
  pose proof (rne_near (x * J)) as [Nl Nh].
  set (m := rne (x * J)) in *.
  split; [| split; [| split]].
  - intros N HN. rewrite Hr. apply Qle_shift_div_r; [assumption |].
    unfold J. rewrite <- inject_Z_mult, <- Zle_Qle.
    apply rne_le_int. rewrite inject_Z_mult.
    apply Qmult_le_compat_r; [assumption | now apply Qlt_le_weak].
  - intros N HN. rewrite Hr. apply Qle_shift_div_l; [assumption |].
    unfold J. rewrite <- inject_Z_mult, <- Zle_Qle.
    apply rne_ge_int. rewrite inject_Z_mult.
    apply Qmult_le_compat_r; [assumption | now apply Qlt_le_weak].
  - rewrite Hr. apply Qle_shift_div_l; [assumption |].
    assert (F : ((x - (1 # 2) / K) * J == x * J - (1 # 2) * (J / K))%Q).
    { field. intros C. rewrite C in HK. now apply (Qlt_irrefl 0). }
    rewrite F.
    assert (G : (1 <= J / K)%Q).
    { apply Qle_shift_div_l; [assumption |]. now rewrite Qmult_1_l. }
    Lqa.lra.
  - rewrite Hr. apply Qle_shift_div_r; [assumption |].
    assert (F : ((x + (1 # 2) / K) * J == x * J + (1 # 2) * (J / K))%Q).
    { field. intros C. rewrite C in HK. now apply (Qlt_irrefl 0). }
    rewrite F.
    assert (G : (1 <= J / K)%Q).
    { apply Qle_shift_div_l; [assumption |]. now rewrite Qmult_1_l. }
    Lqa.lra.
Qed.

(** ** The compass-arrow glyph *)

Lemma Qfloor_unique (x : Q) (z : Z) :
  (inject_Z z <= x)%Q -> (x < inject_Z (z + 1))%Q -> Qfloor x = z.
Proof.
  intros Hlo Hhi.
  pose proof (Qfloor_le x) as Fl. pose proof (Qlt_floor x) as Fh.
  assert (H1 : (inject_Z (Qfloor x) < inject_Z (z + 1))%Q)
    by (eapply Qle_lt_trans; eassumption).
  assert (H2 : (inject_Z z < inject_Z (Qfloor x + 1))%Q)
    by (eapply Qle_lt_trans; eassumption).
  rewrite <- Zlt_Qlt in H1, H2. lia.
Qed.

Lemma inject_Z_minus (x y : Z) :
  inject_Z (x - y) = (inject_Z x - inject_Z y)%Q.
Proof.
  unfold Z.sub, Qminus. now rewrite inject_Z_plus, inject_Z_opp.
Qed.

Lemma Qfloor_shift (x : Q) (k : Z) :
  Qfloor (x + inject_Z k) = Qfloor x + k.
Proof.
  pose proof (Qfloor_le x) as Fl. pose proof (Qlt_floor x) as Fh.
  apply Qfloor_unique.
  - rewrite inject_Z_plus. Lqa.lra.
  - replace (Qfloor x + k + 1) with ((Qfloor x + 1) + k) by ring.
    rewrite inject_Z_plus. Lqa.lra.
Qed.

Lemma round_half_up_sectors (q : Q) (k : Z) :
  round_half_up ((q + 45 * inject_Z k) / 45) = round_half_up (q / 45) + k.
Proof.
  unfold round_half_up. rewrite <- Qfloor_shift. apply Qfloor_comp. field.
Qed.

Lemma mod8_shift (a k : Z) : (a - 8 * k) mod 8 = a mod 8.
Proof.
  replace (a - 8 * k) with (a + (- k) * 8) by ring. apply Z_mod_plus_full.
Qed.

(** Whole turns do not change the bucket. *)
Lemma round_half_up_turns (q q' : Q) (t : Z) :
  (q == q' + 360 * inject_Z t)%Q ->
  round_half_up (q / 45) mod 8 = round_half_up (q' / 45) mod 8.
Proof.
  intros E.
  assert (E' : (q / 45 == (q' + 45 * inject_Z (8 * t)) / 45)%Q).
  { rewrite E, inject_Z_mult. change (inject_Z 8) with 8%Q. field. }
  unfold round_half_up at 1. rewrite E'.
  fold (round_half_up ((q' + 45 * inject_Z (8 * t)) / 45)).
  rewrite round_half_up_sectors.
  replace (round_half_up (q' / 45) + 8 * t)
    with (round_half_up (q' / 45) - 8 * (- t)) by ring.
  apply mod8_shift.
Qed.

Lemma round_half_up_nearest (x : Q) :
  (inject_Z (round_half_up x) - (1 # 2) <= x)%Q /\
  (x < inject_Z (round_half_up x) + (1 # 2))%Q.
Proof.
  unfold round_half_up.
  pose proof (Qfloor_le (x + (1 # 2))) as Fl.
  pose proof (Qlt_floor (x + (1 # 2))) as Fh.
  rewrite inject_Z_plus in Fh. change (inject_Z 1) with 1%Q in Fh.
  revert Fl Fh. generalize (inject_Z (Qfloor (x + (1 # 2)))).
  intros f Fl Fh. split; Lqa.lra.
Qed.

Lemma round_half_way (k : Z) :
  round_half_up ((22.5 + 45 * inject_Z k) / 45) = k + 1.
Proof.
  unfold round_half_up.
  rewrite <- (Qfloor_Z (k + 1)). apply Qfloor_comp.
  rewrite inject_Z_plus. change (inject_Z 1) with 1%Q. field.
Qed.

Lemma py_index_dirs (j : Z) :
  0 <= j < 8 -> py_index AppWindText.dirs (PyInt j) = Ok (glyph j).
Proof.
  intros H.
  assert (E : j = 0 \/ j = 1 \/ j = 2 \/ j = 3 \/ j = 4 \/ j = 5 \/ j = 6
              \/ j = 7) by lia.
  repeat (destruct E as [-> | E]; [reflexivity |]). now subst.
Qed.

Lemma glyph_in_dirs (j : Z) : 0 <= j < 8 -> In (glyph j) AppWindText.dirs.
Proof.
  intros H.
  assert (E : j = 0 \/ j = 1 \/ j = 2 \/ j = 3 \/ j = 4 \/ j = 5 \/ j = 6
              \/ j = 7) by lia.
  unfold glyph.
  repeat (destruct E as [-> | E]; [simpl; tauto |]). subst. simpl. tauto.
Qed.

Lemma glyph_is_eq (r : result string) (i : Z) :
  glyph_is r i = true -> r = Ok (glyph i).
Proof.
  destruct r as [s | e]; [| discriminate].
  cbn [glyph_is]. intros H. apply String.eqb_eq in H. now subst.
Qed.

(** *** After [deg % 360] *)

Lemma truediv_45 (m : Q) :
  py_truediv (PyFloat (Finite m)) (pyfloat_lit 45.0) =
  Ok (PyFloat (round64 (m / 45.0))).
Proof. reflexivity. Qed.

Lemma add_half (d : Q) :
  py_add (PyFloat (Finite d)) (pyfloat_lit 0.5) =
  Ok (PyFloat (round64 (d + 0.5))).
Proof. reflexivity. Qed.

Lemma arrow_of_remainder_finite (m d s : Q) :
  round64 (m / 45.0) = Finite d -> round64 (d + 0.5) = Finite s ->
  (0 <= s)%Q ->
  AppWindText.arrow_of_remainder (PyFloat (Finite m)) =
  Ok (glyph (Qfloor s mod 8)).
Proof.
  intros Ed Es Hs. unfold AppWindText.arrow_of_remainder.
  rewrite truediv_45, Ed. cbn [rbind]. rewrite add_half, Es. cbn [rbind].
  change (py_int (PyFloat (Finite s)))
    with (Ok (if Qis_neg s then - Qfloor (- s) else Qfloor s)).
  assert (N : Qis_neg s = false) by now apply Qltb_ge.
  rewrite N. cbn [rbind].
  change (py_mod (PyInt (Qfloor s)) (PyInt 8))
    with (Ok (PyInt (Qfloor s mod 8))).
  cbn [rbind]. apply py_index_dirs. apply Z.mod_pos_bound. lia.
Qed.

Lemma arrow_of_remainder_comp (m m' : Q) :
  (m == m')%Q ->
  AppWindText.arrow_of_remainder (PyFloat (Finite m)) =
  AppWindText.arrow_of_remainder (PyFloat (Finite m')).
Proof.
  intros E. unfold AppWindText.arrow_of_remainder.
  rewrite !truediv_45.
  rewrite (round64_comp (m / 45.0) (m' / 45.0)) by now rewrite E.
  reflexivity.
Qed.

(** The sector chosen for a remainder is the nearest one, up to the two
    roundings: each is off by at most 2^-50. *)
Lemma arrow_of_remainder_near (m : Q) :
  (0 <= m)%Q -> (m <= 360)%Q ->
  exists i : Z,
    AppWindText.arrow_of_remainder (PyFloat (Finite m)) =
      Ok (glyph (i mod 8)) /\
    0 <= i <= 8 /\
    (45 * inject_Z i - 22.5 - (45 # 562949953421312) <= m)%Q /\
    (m < 45 * inject_Z i + 22.5 + (45 # 562949953421312))%Q.
Proof.
  intros H0 H360.
  assert (E45 : (m / 45.0 == m * (1 # 45))%Q) by field.
  assert (Ec : ((1 # 2) / inject_Z (2 ^ (53 - 4)) ==
                1 # 1125899906842624)%Q) by (vm_compute; reflexivity).
  destruct (round64_small (m / 45.0) 4) as (d & Ed & Dle & Dge & Dlo & Dhi).
  { rewrite E45. Lqa.lra. }
  { change (inject_Z (2 ^ 4)) with 16%Q. rewrite E45. Lqa.lra. }
  { lia. }
  assert (D8 : (d <= 8)%Q).
  { apply (Dle 8). rewrite E45. change (inject_Z 8) with 8%Q. Lqa.lra. }
  assert (D0 : (0 <= d)%Q).
  { apply (Dge 0). rewrite E45. change (inject_Z 0) with 0%Q. Lqa.lra. }
  destruct (round64_small (d + 0.5) 4) as (s & Es & Sle & Sge & Slo & Shi).
  { Lqa.lra. }
  { change (inject_Z (2 ^ 4)) with 16%Q. Lqa.lra. }
  { lia. }
  assert (S0 : (0 <= s)%Q).
  { apply (Sge 0). change (inject_Z 0) with 0%Q. Lqa.lra. }
  rewrite Ec, E45 in *.
  pose proof (Qfloor_le s) as Fl. pose proof (Qlt_floor s) as Fh.
  rewrite inject_Z_plus in Fh. change (inject_Z 1) with 1%Q in Fh.
  exists (Qfloor s). split; [| split; [| split]].
  - now apply (arrow_of_remainder_finite m d s).
  - split.
    + change 0 with (Qfloor 0). apply Qfloor_resp_le. exact S0.
    + assert (L : (inject_Z (Qfloor s) < inject_Z 9)%Q).
      { change (inject_Z 9) with 9%Q. Lqa.lra. }
      rewrite <- Zlt_Qlt in L. lia.
  - Lqa.lra.
  - Lqa.lra.
Qed.

(** *** [deg % 360] *)

(** The remainder is the direction less whole turns, in [[0, 360)]: kept
    as it is for a direction that is not negative, rounded after 360 was
    added for one that is. *)
Lemma float_mod_360 (q : Q) :
  exists t : Z,
    (0 <= q - 360 * inject_Z t)%Q /\ (q - 360 * inject_Z t < 360)%Q /\
    ((exists r : Q,
        float_mod (Finite q) (Finite (inject_Z 360)) = Ok (Finite r) /\
        (r == q - 360 * inject_Z t)%Q) \/
     (float_mod (Finite q) (Finite (inject_Z 360)) =
        Ok (round64 (q - 360 * inject_Z t)) /\
      (0 < q - 360 * inject_Z t)%Q /\ (q < 0)%Q)).
Proof.
  unfold float_mod.
  change (Qis_zero (inject_Z 360)) with false. cbv iota.
  change (Qis_neg (inject_Z 360)) with false.
  unfold fmod.
  assert (Ex : (q / inject_Z 360 == q * (1 # 360))%Q).
  { change (inject_Z 360) with 360%Q. field. }
  remember (q / inject_Z 360)%Q as x eqn:Dx. clear Dx.
  change (inject_Z 360) with 360%Q.
  destruct (Qis_neg x) eqn:Nx.
  - apply Qltb_lt in Nx.
    pose proof (Qfloor_le (- x)) as Fl. pose proof (Qlt_floor (- x)) as Fh.
    rewrite inject_Z_plus in Fh. change (inject_Z 1) with 1%Q in Fh.
    remember (Qfloor (- x)) as f eqn:Df. clear Df.
    rewrite inject_Z_opp.
    remember (q - 360 * - inject_Z f)%Q as r eqn:Dr.
    assert (Er : (r == q + 360 * inject_Z f)%Q) by (subst r; ring).
    clear Dr.
    destruct (Qis_zero r) eqn:Zr.
    + apply Qeq_bool_iff in Zr. exists (- f). rewrite inject_Z_opp.
      split; [Lqa.lra |]. split; [Lqa.lra |].
      left. exists 0%Q. split; [reflexivity | Lqa.lra].
    + apply Qeq_bool_neq in Zr.
      assert (Hr : (r < 0)%Q).
      { destruct (Qlt_le_dec r 0) as [L | G]; [exact L |].
        exfalso. apply Zr. Lqa.lra. }
      assert (Nr : Qis_neg r = true) by now apply Qltb_lt.
      rewrite Nr. cbn [xorb].
      exists (- f - 1). rewrite inject_Z_minus, inject_Z_opp.
      change (inject_Z 1) with 1%Q.
      split; [Lqa.lra |]. split; [Lqa.lra |].
      right. split; [| split; Lqa.lra].
      f_equal. apply round64_comp. Lqa.lra.
  - apply Qltb_ge in Nx.
    pose proof (Qfloor_le x) as Fl. pose proof (Qlt_floor x) as Fh.
    rewrite inject_Z_plus in Fh. change (inject_Z 1) with 1%Q in Fh.
    remember (Qfloor x) as f eqn:Df. clear Df.
    exists f.
    split; [Lqa.lra |]. split; [Lqa.lra |].
    left.
    destruct (Qis_zero (q - 360 * inject_Z f)) eqn:Zr.
    + apply Qeq_bool_iff in Zr. exists 0%Q.
      split; [reflexivity | now symmetry].
    + assert (Nr : Qis_neg (q - 360 * inject_Z f) = false).
      { apply Qltb_ge. Lqa.lra. }
      rewrite Nr. cbn [xorb]. eexists. split; reflexivity.
Qed.

Lemma py_mod_float (q : Q) :
  py_mod (PyFloat (Finite q)) (PyInt 360) =
  (r <- float_mod (Finite q) (Finite (inject_Z 360)) ;; Ok (PyFloat r))%res.
Proof. reflexivity. Qed.

(** [deg % 360] for a float: in [[0, 360]], at most 2^-45 away from the
    direction less whole turns, and equal to it for a direction that is
    not negative. *)
Lemma py_mod_360 (q : Q) :
  exists (m : Q) (t : Z),
    py_mod (PyFloat (Finite q)) (PyInt 360) = Ok (PyFloat (Finite m)) /\
    (0 <= m)%Q /\ (m <= 360)%Q /\
    (q - 360 * inject_Z t - (1 # 35184372088832) <= m)%Q /\
    (m <= q - 360 * inject_Z t + (1 # 35184372088832))%Q /\
    ((0 <= q)%Q -> (m == q - 360 * inject_Z t)%Q).
Proof.
  rewrite py_mod_float.
  destruct (float_mod_360 q) as (t & R0 & R1 & [(r & E & Er) | (E & Rp & Hq)]).
  - exists r, t. rewrite E. cbn [rbind].
    split; [reflexivity |].
    split; [Lqa.lra |]. split; [Lqa.lra |].
    split; [Lqa.lra |]. split; [Lqa.lra |].
    intros _. exact Er.
  - assert (Ec : ((1 # 2) / inject_Z (2 ^ (53 - 9)) ==
                  1 # 35184372088832)%Q) by (vm_compute; reflexivity).
    destruct (round64_small (q - 360 * inject_Z t) 9)
      as (m & Em & Mle & Mge & Mlo & Mhi).
    { exact R0. }
    { change (inject_Z (2 ^ 9)) with 512%Q. Lqa.lra. }
    { lia. }
    rewrite Ec in *.
    exists m, t. rewrite E, Em. cbn [rbind].
    split; [reflexivity |].
    split; [apply (Mge 0); exact R0 |].
    split; [apply (Mle 360); change (inject_Z 360) with 360%Q; Lqa.lra |].
    split; [exact Mlo |]. split; [exact Mhi |].
    intros Hq'. exfalso. Lqa.lra.
Qed.

(** The glyph of a float direction is that of a sector whose centre is
    within 22.5 degrees of the direction, whole turns apart and up to
    2^-43 degrees of rounding. *)
Lemma arrow_try_near (q : Q) :
  exists i t : Z,
    AppWindText.arrow_try (PyFloat (Finite q)) = Ok (glyph (i mod 8)) /\
    0 <= i <= 8 /\
    (45 * inject_Z i - 22.5 - rounding_slack <= q - 360 * inject_Z t)%Q /\
    (q - 360 * inject_Z t < 45 * inject_Z i + 22.5 + rounding_slack)%Q.
Proof.
  destruct (py_mod_360 q) as (m & t & E & M0 & M360 & Mlo & Mhi & _).
  destruct (arrow_of_remainder_near m M0 M360) as (i & Ei & Hi & Ilo & Ihi).
  exists i, t. unfold AppWindText.arrow_try. rewrite E. cbn [rbind].
  split; [exact Ei |]. split; [exact Hi |].
  unfold rounding_slack. split; Lqa.lra.
Qed.

(** *** Whole and half degrees *)

Lemma whole_degrees_table :
  forallb (fun r =>
             glyph_is (AppWindText.arrow_of_remainder (PyInt r))
                      (round_half_up (inject_Z r / 45) mod 8))
          whole_degrees = true.
Proof. vm_compute. reflexivity. Qed.

Lemma half_degrees_table :
  forallb (fun j =>
             is_double (j # 2) &&
             glyph_is (AppWindText.arrow_of_remainder (pyfloat_lit (j # 2)))
                      (round_half_up ((j # 2) / 45) mod 8))
          half_degrees = true.
Proof. vm_compute. reflexivity. Qed.

Lemma in_upto (n : nat) (r : Z) :
  0 <= r < Z.of_nat n -> In r (map Z.of_nat (seq 0 n)).
Proof.
  intros H. apply in_map_iff. exists (Z.to_nat r).
  split; [lia | apply in_seq; lia].
Qed.

Lemma arrow_try_int (z : Z) :
  AppWindText.arrow_try (PyInt z) =
  Ok (glyph (round_half_up (inject_Z z / 45) mod 8)).
Proof.
  unfold AppWindText.arrow_try.
  change (py_mod (PyInt z) (PyInt 360)) with (Ok (PyInt (z mod 360))).
  cbn [rbind].
  assert (Hr : 0 <= z mod 360 < 360) by (apply Z.mod_pos_bound; lia).
  pose proof whole_degrees_table as T.
  rewrite forallb_forall in T.
  rewrite (glyph_is_eq _ _ (T (z mod 360) (in_upto 360 _ Hr))).
  do 2 f_equal. symmetry. apply (round_half_up_turns _ _ (z / 360)).
  rewrite (Z.div_mod z 360) at 1 by lia.
  rewrite inject_Z_plus, inject_Z_mult.
  change (inject_Z 360) with 360%Q. ring.
Qed.

(** A float direction that is a whole number of half degrees. *)
Lemma arrow_try_half (q : Q) (h : Z) :
  (q == h # 2)%Q ->
  AppWindText.arrow_try (PyFloat (Finite q)) =
  Ok (glyph (round_half_up (q / 45) mod 8)).
Proof.
  intros Eq.
  destruct (float_mod_360 q) as (t & R0 & R1 & Hm).
  set (j := h - 720 * t).
  assert (Ej : (q - 360 * inject_Z t == j # 2)%Q).
  { rewrite Eq. unfold j, Qeq, Qminus, Qplus, Qopp, Qmult, inject_Z.
    cbn [Qnum Qden]. lia. }
  assert (Hj : 0 <= j < 720).
  { rewrite Ej in R0, R1. unfold Qle in R0. unfold Qlt in R1.
    cbn [Qnum Qden] in R0, R1. lia. }
  pose proof half_degrees_table as T.
  rewrite forallb_forall in T.
  specialize (T j (in_upto 720 _ Hj)).
  apply andb_true_iff in T. destruct T as [Td Tg].
  apply glyph_is_eq in Tg.
  assert (Et : round_half_up (q / 45) mod 8 =
               round_half_up ((j # 2) / 45) mod 8).
  { apply (round_half_up_turns _ _ t). rewrite <- Ej. ring. }
  rewrite Et, <- Tg.
  unfold AppWindText.arrow_try. rewrite py_mod_float.
  destruct Hm as [(r & E & Er) | (E & _ & _)].
  - rewrite E. cbn [rbind]. apply arrow_of_remainder_comp.
    now rewrite Er.
  - rewrite E, (round64_comp _ (j # 2) Ej).
    unfold is_double in Td.
    destruct (round64 (j # 2)) as [r | |]; try discriminate.
    apply Qeq_bool_iff in Td. cbn [rbind].
    now apply arrow_of_remainder_comp.
Qed.

Lemma arrow_int (z : Z) :
  AppWindText.arrow_from_direction (PyInt z) =
  glyph (round_half_up (inject_Z z / 45) mod 8).
Proof.
  unfold AppWindText.arrow_from_direction. now rewrite arrow_try_int.
Qed.

Lemma arrow_half (q : Q) (h : Z) :
  (q == h # 2)%Q ->
  AppWindText.arrow_from_direction (PyFloat (Finite q)) =
  glyph (round_half_up (q / 45) mod 8).
Proof.
  intros E. unfold AppWindText.arrow_from_direction.
  now rewrite (arrow_try_half q h E).
Qed.

Lemma arrow_near (q : Q) :
  exists i t : Z,
    AppWindText.arrow_from_direction (PyFloat (Finite q)) = glyph (i mod 8) /\
    (45 * inject_Z i - 22.5 - rounding_slack <= q - 360 * inject_Z t)%Q /\
    (q - 360 * inject_Z t < 45 * inject_Z i + 22.5 + rounding_slack)%Q.
Proof.
  destruct (arrow_try_near q) as (i & t & E & _ & Lo & Hi).
  exists i, t. unfold AppWindText.arrow_from_direction. rewrite E.
  split; [reflexivity |]. split; assumption.
Qed.

(** C5, as claimed, fails: the double just below 22.5 degrees,
    22.499999999999996, lies in the sector of north, and 1/45 of it is
    nearer to 0 than to 1 whatever is done with a tie; yet its quotient by
    45.0, 0.49999999999999994, plus 0.5 rounds to 1.0, and the code gives
    the glyph of north-east. *)
Lemma arrow_from_direction_counterexample :
  ~ (forall q : Q,
       AppWindText.arrow_from_direction (PyFloat (Finite q)) =
       glyph (round_half_up (q / 45) mod 8)) /\
  is_double below_22_5 = true /\
  (0 <= below_22_5 / 45)%Q /\ (below_22_5 / 45 < 1 # 2)%Q /\
  round_half_up (below_22_5 / 45) = 0 /\
  glyph (round_half_up (below_22_5 / 45) mod 8) = "↑"%string /\
  py_truediv (pyfloat_lit below_22_5) (pyfloat_lit 45.0) =
    Ok (pyfloat_lit (9007199254740991 # 18014398509481984)) /\
  py_add (pyfloat_lit (9007199254740991 # 18014398509481984))
         (pyfloat_lit 0.5) = Ok (pyfloat_lit 1) /\
  AppWindText.arrow_from_direction (pyfloat_lit below_22_5) = "↗"%string.
Proof.
  assert (A : AppWindText.arrow_from_direction (pyfloat_lit below_22_5) =
              "↗"%string) by (vm_compute; reflexivity).
  split.
  { intros H. specialize (H below_22_5).
    unfold pyfloat_lit in A. rewrite A in H. vm_compute in H.
    discriminate H. }
  split; [vm_compute; reflexivity |].
  split; [vm_compute; discriminate |].
  split; [vm_compute; reflexivity |].
  split; [vm_compute; reflexivity |].
  split; [vm_compute; reflexivity |].
  split; [vm_compute; reflexivity |].
  split; [vm_compute; reflexivity |].
  exact A.
Qed.

(** C5, amended.  The glyph of a direction given as an int, or as a float
    that is a whole number of half degrees, is the one of bucket
    [round(direction / 45) mod 8], a tie going up; the glyph of any other
    finite float is that of a sector whose centre is within 22.5 degrees
    of the direction, whole turns apart, up to 2^-43 degrees of rounding.
    The buckets carry the eight arrows clockwise from north; 0, 45 and 360
    degrees give up, up-right and up; a negative direction is first
    reduced modulo 360; an input that is not a number gives the empty
    string. *)
Theorem arrow_from_direction_buckets :
  (forall z : Z,
     AppWindText.arrow_from_direction (PyInt z) =
     glyph (round_half_up (inject_Z z / 45) mod 8)) /\
  (forall h : Z,
     AppWindText.arrow_from_direction (PyFloat (Finite (h # 2))) =
     glyph (round_half_up ((h # 2) / 45) mod 8)) /\
  (forall q : Q, exists i t : Z,
     AppWindText.arrow_from_direction (PyFloat (Finite q)) =
       glyph (i mod 8) /\
     (45 * inject_Z i - 22.5 - rounding_slack <= q - 360 * inject_Z t)%Q /\
     (q - 360 * inject_Z t < 45 * inject_Z i + 22.5 + rounding_slack)%Q) /\
  (forall x : Q,
     (inject_Z (round_half_up x) - (1 # 2) <= x)%Q /\
     (x < inject_Z (round_half_up x) + (1 # 2))%Q) /\
  map glyph [0; 1; 2; 3; 4; 5; 6; 7] =
    ["↑"; "↗"; "→"; "↘"; "↓"; "↙"; "←"; "↖"]%string /\
  (AppWindText.arrow_from_direction (PyInt 0) = "↑" /\
   AppWindText.arrow_from_direction (PyInt 45) = "↗" /\
   AppWindText.arrow_from_direction (PyInt 360) = "↑" /\
   AppWindText.arrow_from_direction (pyfloat_lit 0.0) = "↑" /\
   AppWindText.arrow_from_direction (pyfloat_lit 45.0) = "↗" /\
   AppWindText.arrow_from_direction (pyfloat_lit 360.0) = "↑" /\
   AppWindText.arrow_from_direction (PyInt (-1)) = "↑" /\
   AppWindText.arrow_from_direction (PyInt (-45)) = "↖" /\
   AppWindText.arrow_from_direction (pyfloat_lit (-90.0)) = "←")%string /\
  ((forall s, AppWindText.arrow_from_direction (PyStr s) = EmptyString) /\
   AppWindText.arrow_from_direction PyNone = EmptyString /\
   AppWindText.arrow_from_direction (PyFloat NaN) = EmptyString /\
   (forall b,
      AppWindText.arrow_from_direction (PyFloat (Inf b)) = EmptyString) /\
   (forall t,
      AppWindText.arrow_from_direction (PyTimestamp t) = EmptyString)).
Proof.
  split; [exact arrow_int |].
  split; [intros h; now apply (arrow_half (h # 2) h) |].
  split; [exact arrow_near |].
  split; [exact round_half_up_nearest |].
  split; [reflexivity |].
  split; [repeat split; vm_compute; reflexivity |].
  repeat split; intros; reflexivity.
Qed.

(** C10.  A direction exactly halfway between two sectors, 22.5 + 45 k
    degrees, gets the glyph of the later sector, k + 1 (modulo 8): 22.5
    gives up-right and 337.5 gives up.  [deg % 360] is never negative: it
    lies in 0..360, and a float just below zero gives 360.0 itself, which
    the final [% 8] sends to the first glyph.  Every finite number, float
    or int, gets one of the eight glyphs. *)
Theorem arrow_from_direction_half_up :
  (forall k : Z,
     AppWindText.arrow_from_direction
       (PyFloat (Finite (22.5 + 45 * inject_Z k)%Q)) =
     glyph ((k + 1) mod 8)) /\
  (AppWindText.arrow_from_direction (pyfloat_lit 22.5) = "↗" /\
   AppWindText.arrow_from_direction (pyfloat_lit 337.5) = "↑" /\
   AppWindText.arrow_from_direction (pyfloat_lit (-22.5)) = "↑")%string /\
  (forall q : Q, exists m : Q,
     py_mod (PyFloat (Finite q)) (PyInt 360) = Ok (PyFloat (Finite m)) /\
     (0 <= m)%Q /\ (m <= 360)%Q) /\
  (py_mod (pyfloat_lit just_below_0) (PyInt 360) = Ok (pyfloat_lit 360) /\
   AppWindText.arrow_from_direction (pyfloat_lit just_below_0) =
     "↑"%string) /\
  (forall z : Z,
     py_mod (PyInt z) (PyInt 360) = Ok (PyInt (z mod 360)) /\
     0 <= z mod 360 < 360) /\
  (forall q : Q,
     In (AppWindText.arrow_from_direction (PyFloat (Finite q)))
        AppWindText.dirs) /\
  (forall z : Z,
     In (AppWindText.arrow_from_direction (PyInt z)) AppWindText.dirs).
Proof.
  split.
  { intros k. rewrite (arrow_half _ (45 + 90 * k)).
    - now rewrite round_half_way.
    - unfold Qeq, Qplus, Qmult, inject_Z. cbn [Qnum Qden]. lia. }
  split; [repeat split; vm_compute; reflexivity |].
  split.
  { intros q. destruct (py_mod_360 q) as (m & t & E & M0 & M360 & _).
    exists m. repeat split; assumption. }
  split; [split; vm_compute; reflexivity |].
  split.
  { intros z. split; [reflexivity | apply Z.mod_pos_bound; lia]. }
  split.
  - intros q. destruct (arrow_near q) as (i & t & E & _).
    rewrite E. apply glyph_in_dirs. apply Z.mod_pos_bound. lia.
  - intros z. rewrite arrow_int. apply glyph_in_dirs.
    apply Z.mod_pos_bound. lia.
Qed.

(** ** Wind vectors *)

Lemma Q2R_0 : Q2R 0 = 0%R.
Proof. unfold Q2R. simpl. Lra.lra. Qed.

Lemma Q2R_1 : Q2R 1 = 1%R.
Proof. unfold Q2R. simpl. Lra.lra. Qed.

Lemma Q2R_inject_Z (z : Z) : Q2R (inject_Z z) = IZR z.
Proof. unfold Q2R. simpl. Lra.lra. Qed.

Lemma end_lon_formula (scale lon speed : Q) (t : R) :
  AppWind.end_lon (pyfloat_lit scale) (pyfloat_lit lon) (pyfloat_lit speed)
    (preal t) =
  Ok (preal (Q2R lon + Q2R speed * Q2R scale * sin t)).
Proof.
  unfold AppWind.end_lon, preal, pyfloat_lit. cbn.
  now rewrite Q2R_mult.
Qed.

Lemma end_lat_formula (scale lat speed : Q) (t : R) :
  AppWind.end_lat (pyfloat_lit scale) (pyfloat_lit lat) (pyfloat_lit speed)
    (preal t) =
  Ok (preal (Q2R lat + Q2R speed * Q2R scale * cos t)).
Proof.
  unfold AppWind.end_lat, preal, pyfloat_lit. cbn.
  now rewrite Q2R_mult.
Qed.

Lemma map_offset_formula (scale speed bearing : Q) :
  map_offset scale speed bearing =
  Ok (preal (Q2R speed * Q2R scale * sin (Q2R bearing * (PI / 180))),
      preal (Q2R speed * Q2R scale * cos (Q2R bearing * (PI / 180)))).
Proof.
  unfold map_offset.
  change (AppWind.theta (pyfloat_lit bearing))
    with (Ok (preal (Q2R bearing * (PI / 180)))).
  cbn [rbind]. rewrite end_lon_formula, end_lat_formula. cbn [rbind].
  rewrite Q2R_0. unfold preal. do 4 f_equal; Lra.lra.
Qed.

Lemma cartesian_formula (speed bearing : Q) :
  cartesian speed bearing =
  Ok (preal (Q2R speed * cos (Q2R bearing * (PI / 180))),
      preal (Q2R speed * sin (Q2R bearing * (PI / 180)))).
Proof. reflexivity. Qed.

Lemma bearing_0 : (Q2R 0 * (PI / 180) = 0)%R.
Proof. rewrite Q2R_0. Lra.lra. Qed.

Lemma bearing_90 : (Q2R 90 * (PI / 180) = PI / 2)%R.
Proof. change 90%Q with (inject_Z 90). rewrite Q2R_inject_Z. Lra.lra. Qed.

(** C4.  The end point of the wind line is the point moved by
    [dx = speed * scale * sin(bearing_rad)] in longitude and
    [dy = speed * scale * cos(bearing_rad)] in latitude.  At speed 10 and
    scale 1, bearing 0 gives the displacement (0, 10) and bearing 90 gives
    (10, 0).  (Over the reals; the script fixes the scale at 0.0005.) *)
Theorem wind_map_offset :
  (forall scale lon lat speed bearing : Q,
     let t := (Q2R bearing * (PI / 180))%R in
     AppWind.theta (pyfloat_lit bearing) = Ok (preal t) /\
     AppWind.end_lon (pyfloat_lit scale) (pyfloat_lit lon)
       (pyfloat_lit speed) (preal t) =
     Ok (preal (Q2R lon + Q2R speed * Q2R scale * sin t)) /\
     AppWind.end_lat (pyfloat_lit scale) (pyfloat_lit lat)
       (pyfloat_lit speed) (preal t) =
     Ok (preal (Q2R lat + Q2R speed * Q2R scale * cos t))) /\
  map_offset 1 10 0 = Ok (preal 0, preal 10) /\
  map_offset 1 10 90 = Ok (preal 10, preal 0) /\
  AppWind.scale = pyfloat_lit 0.0005.
Proof.
  split.
  { intros scale lon lat speed bearing t. split; [reflexivity |].
    split; [apply end_lon_formula | apply end_lat_formula]. }
  split.
  { rewrite map_offset_formula, bearing_0, sin_0, cos_0, Q2R_1.
    change 10%Q with (inject_Z 10). rewrite Q2R_inject_Z.
    unfold preal. do 4 f_equal; Lra.lra. }
  split; [| reflexivity].
  rewrite map_offset_formula, bearing_90, sin_PI2, cos_PI2, Q2R_1.
  change 10%Q with (inject_Z 10). rewrite Q2R_inject_Z.
  unfold preal. do 4 f_equal; Lra.lra.
Qed.

(** C7.  The cartesian-plot arrow is [u = speed * cos(bearing_rad)],
    [v = speed * sin(bearing_rad)]: for every speed and bearing it is the
    map-offset displacement at scale 1 with its two components swapped.  At
    bearing 0 the map offset is (0, speed) and the arrow is (speed, 0), so
    the two conventions differ, for instance at speed 1. *)
Theorem wind_conventions_swapped :
  (forall speed bearing : Q,
     let t := (Q2R bearing * (PI / 180))%R in
     cartesian speed bearing =
       Ok (preal (Q2R speed * cos t), preal (Q2R speed * sin t)) /\
     exists dx dy : R,
       map_offset 1 speed bearing = Ok (preal dx, preal dy) /\
       cartesian speed bearing = Ok (preal dy, preal dx)) /\
  (forall speed : Q,
     map_offset 1 speed 0 = Ok (preal 0, preal (Q2R speed)) /\
     cartesian speed 0 = Ok (preal (Q2R speed), preal 0)) /\
  map_offset 1 1 0 <> cartesian 1 0.
Proof.
  assert (Z0 : forall speed : Q,
             map_offset 1 speed 0 = Ok (preal 0, preal (Q2R speed)) /\
             cartesian speed 0 = Ok (preal (Q2R speed), preal 0)).
  { intros speed.
    rewrite map_offset_formula, cartesian_formula, bearing_0, sin_0, cos_0,
      Q2R_1.
    unfold preal. split; do 4 f_equal; Lra.lra. }
  split.
  { intros speed bearing t. split; [apply cartesian_formula |].
    exists (Q2R speed * sin t)%R, (Q2R speed * cos t)%R.
    rewrite map_offset_formula, cartesian_formula, Q2R_1. subst t.
    unfold preal. split; do 4 f_equal; Lra.lra. }
  split; [exact Z0 |].
  destruct (Z0 1%Q) as [-> ->]. rewrite Q2R_1.
  intros H. injection H as H _. Lra.lra.
Qed.

(** ** The date filter *)

(** One cell of the mask of app_wind_static.py: the date component must
    match and the time of day must be 00:00. *)
Lemma eq_timestamp_mask_cell (ns d : Z) :
  eq_timestamp [PyTimestamp (Some ns)] (to_datetime d) =
  [(ns / day_ns =? d) && (ns mod day_ns =? 0)].
Proof.
  unfold eq_timestamp, to_datetime. cbn [map]. f_equal.
  assert (Hd : 0 < day_ns) by reflexivity.
  pose proof (Z.div_mod ns day_ns ltac:(lia)) as E.
  pose proof (Z.mod_pos_bound ns day_ns Hd) as B.
  destruct (ns =? d * day_ns) eqn:H1.
  - apply Z.eqb_eq in H1. symmetry. apply andb_true_iff.
    rewrite !Z.eqb_eq. subst ns.
    rewrite Z.div_mul, Z.mod_mul by lia. split; reflexivity.
  - apply Z.eqb_neq in H1. symmetry. apply andb_false_iff.
    rewrite !Z.eqb_neq.
    destruct (Z.eq_dec (ns / day_ns) d) as [E1 | E1]; [right | now left].
    intros E2. apply H1. rewrite E, E1, E2. ring.
Qed.

(** The five pydeck scripts keep the rows whose date component is the
    selected day, whatever the time of day. *)
Lemma dt_date_mask (dates : list pyobj) (days : list (option Z)) (d : Z) :
  dt_date dates = Ok days -> eq_date days d = map (same_day d) dates.
Proof.
  unfold dt_date. revert days.
  induction dates as [| c dates IH]; intros days H; cbn [rmap] in H.
  - now injection H as <-.
  - destruct c as [| | | | | t | |]; try discriminate H. cbn [rbind] in H.
    destruct (rmap _ dates) as [days' |]; [| discriminate H].
    cbn [rbind] in H. injection H as <-.
    cbn [eq_date map]. fold (eq_date days' d). rewrite (IH days' eq_refl).
    now destruct t.
Qed.

Lemma filtered_pydeck (v : variant) (df sub : DataFrame) (d : Z) :
  v <> VWindStatic ->
  filtered_of v df d = Ok sub ->
  exists dates,
    getitem df "date" = Ok dates /\
    sub = getitem_mask df (map (same_day d) dates).
Proof.
  intros Hv H.
  assert (E : (mask <- mask_dt_date df d ;; Ok (getitem_mask df mask))%res
              = Ok sub).
  { destruct v; try exact H. now contradiction Hv. }
  unfold mask_dt_date in E.
  destruct (getitem df "date") as [dates |]; [| discriminate E].
  cbn [rbind] in E.
  destruct (dt_date dates) as [days |] eqn:Hd; [| discriminate E].
  cbn [rbind] in E. injection E as <-.
  exists dates. split; [reflexivity |]. now rewrite (dt_date_mask _ _ _ Hd).
Qed.

(** app_wind_static.py keeps the rows that are the selected day at 00:00. *)
Lemma filtered_static (df sub : DataFrame) (d : Z) :
  filtered_of VWindStatic df d = Ok sub ->
  exists dates,
    getitem df "date" = Ok dates /\
    sub = getitem_mask df (map (same_day_midnight d) dates).
Proof.
  cbn [filtered_of]. unfold AppWindStatic.filtered. intros H.
  destruct (getitem df "date") as [dates |]; [| discriminate H].
  cbn [rbind] in H. injection H as <-.
  exists dates. split; [reflexivity |]. f_equal.
  unfold eq_timestamp. apply map_ext. intros c.
  destruct c as [| | | | | [ns |] | |]; try reflexivity.
  pose proof (eq_timestamp_mask_cell ns d) as E.
  unfold eq_timestamp in E. cbn [map] in E. now injection E.
Qed.

(** C2 at a failing input.  The dataset holds one reading dated
    2025-07-01 12:00 and the selected date is 2025-07-01: the five pydeck
    scripts keep the reading, app_wind_static.py drops it, because its
    mask also asks for a time of day of 00:00. *)
Theorem filtered_static_drops_timed_row :
  ts_date (20270 * day_ns + 12 * 3600000000000) = 20270 /\
  Forall (fun v => filtered_of v noon_reading 20270 = Ok noon_reading)
    [VApp; VWeather; VWind; VWindIcon; VWindText] /\
  filtered_of VWindStatic noon_reading 20270 = Ok no_reading /\
  (forall ns d,
     eq_timestamp [PyTimestamp (Some ns)] (to_datetime d) =
     [(ts_date ns =? d) && (ns mod day_ns =? 0)]).
Proof.
  split; [reflexivity |].
  split; [repeat constructor |].
  split; [reflexivity | exact eq_timestamp_mask_cell].
Qed.

(** ** The rendering pass *)

Lemma bind_get {A} (a : addr) (k : DataFrame -> M A) (s : state)
    (frame : DataFrame) :
  nth_error (store s) a = Some frame -> bind (get a) k s = k frame s.
Proof. intros H. unfold bind, get. now rewrite H. Qed.

Lemma bind_lift {A B} (r : result A) (k : A -> M B) (s : state) (x : A) :
  r = Ok x -> bind (lift r) k s = k x s.
Proof. now intros ->. Qed.

Lemma bind_new {A} (frame : DataFrame) (k : addr -> M A) (s : state) :
  bind (new frame) k s =
  k (List.length (store s))
    {| store := store s ++ [frame]; trace := trace s |}.
Proof. reflexivity. Qed.

Lemma bind_emit {A} (e : event) (k : unit -> M A) (s : state) :
  bind (emit e) k s =
  k tt {| store := store s; trace := trace s ++ [e] |}.
Proof. reflexivity. Qed.

Lemma nth_error_last {A} (l : list A) (x : A) :
  nth_error (l ++ [x]) (List.length l) = Some x.
Proof.
  rewrite nth_error_app2 by lia. now rewrite Nat.sub_diag.
Qed.

Lemma lookup_getitem_mask (name : string) (frame : DataFrame)
    (mask : list bool) :
  lookup name (columns (getitem_mask frame mask)) =
  option_map (select mask) (lookup name (columns frame)).
Proof.
  unfold getitem_mask. cbn [columns].
  induction (columns frame) as [| [n c] cols IH]; [reflexivity |].
  cbn [map lookup fst snd].
  destruct (String.eqb n name); [reflexivity | exact IH].
Qed.

Lemma has_columns_getitem_mask (frame : DataFrame) (mask : list bool)
    (names : list string) :
  has_columns (getitem_mask frame mask) names = has_columns frame names.
Proof.
  unfold has_columns.
  induction names as [| n names IH]; [reflexivity |].
  cbn [forallb]. rewrite IH, lookup_getitem_mask.
  now destruct (lookup n (columns frame)).
Qed.

Lemma getitem_cols_ok (frame : DataFrame) (names : list string) :
  has_columns frame names = true ->
  exists tbl, getitem_cols frame names = Ok tbl.
Proof.
  unfold getitem_cols, has_columns. intros H.
  assert (E : exists cols,
             rmap (fun n => (c <- getitem frame n ;; Ok (n, c))%res) names
             = Ok cols).
  { induction names as [| n names IH]; [now exists [] |].
    cbn [forallb] in H. apply andb_true_iff in H. destruct H as [Hn H].
    destruct (IH H) as [cols E]. cbn [rmap]. rewrite E.
    unfold getitem. destruct (lookup n (columns frame)); [| discriminate].
    cbn. now eexists. }
  destruct E as [cols ->]. cbn. now eexists.
Qed.

Lemma filtered_of_mask (v : variant) (df sub : DataFrame) (d : Z) :
  filtered_of v df d = Ok sub -> exists mask, sub = getitem_mask df mask.
Proof.
  destruct v; cbn [filtered_of];
    unfold App.filtered, AppWeather.filtered, AppWind.filtered,
      AppWindIcon.filtered, AppWindText.filtered, AppWindStatic.filtered;
    intros H.
  1-5: destruct (mask_dt_date df d) as [mask |]; [| discriminate];
       cbn in H; injection H as <-; now exists mask.
  destruct (getitem df "date") as [dates |]; [| discriminate].
  cbn in H. injection H as <-. now eexists.
Qed.

(** C8.  When no reading matches the selected date, a pass raises no error,
    calls neither the classifier nor a map or plot layer nor the
    descriptive statistics, and tells the user that there is no data. *)
Theorem run_empty_subset (v : variant) (df : addr) (selected_date : Z)
    (s : state) (data sub : DataFrame) :
  nth_error (store s) df = Some data ->
  has_columns data (shown_first v) = true ->
  filtered_of v data selected_date = Ok sub ->
  empty sub = true ->
  exists events,
    run_of v df selected_date s =
      (Ok tt, {| store := store s ++ [sub];
                 trace := trace s ++ events |}) /\
    existsb heavy events = false /\
    last events (St_write (Lit EmptyString)) =
      St_write (Lit (no_data_message v)).
Proof.
  intros Hdf Hcols Hsub Hempty.
  destruct (filtered_of_mask v data sub selected_date Hsub) as [mask Emask].
  assert (Hshown : has_columns sub (shown_first v) = true).
  { subst sub. now rewrite has_columns_getitem_mask. }
  destruct (getitem_cols_ok sub _ Hshown) as [tbl Htbl].
  destruct v; cbn [run_of filtered_of shown_first no_data_message] in *.
  1-2: exists [St_subheader (DataFor selected_date);
               St_dataframe (reset_index tbl);
               St_write (Lit "No data available for the selected date.")].
  3-5: exists [St_write (Lit "No data available for the selected date.")].
  6: exists [St_write (Lit "No data available for selected date.")].
  all: split; [| split; reflexivity].
  all: unfold App.run, AppWeather.run, AppWind.run, AppWindIcon.run,
         AppWindText.run, AppWindStatic.run.
  all: rewrite (bind_get _ _ _ _ Hdf), (bind_lift _ _ _ _ Hsub), bind_new.
  1-2: rewrite bind_emit;
       rewrite (bind_get _ _ _ sub) by apply nth_error_last;
       rewrite (bind_lift _ _ _ _ Htbl), bind_emit.
  all: rewrite (bind_get _ _ _ sub) by apply nth_error_last.
  all: rewrite Hempty; cbn [negb]; unfold emit; cbn [store trace].
  all: now rewrite <- ?app_assoc.
Qed.

Lemma run_empty_subset_witness :
  exists events,
    run_of VApp 0%nat 20271 loaded =
      (Ok tt, {| store := store loaded ++ [no_reading];
                 trace := trace loaded ++ events |}) /\
    existsb heavy events = false /\
    last events (St_write (Lit EmptyString)) =
      St_write (Lit (no_data_message VApp)).
Proof.
  exact (run_empty_subset VApp 0%nat 20271 loaded noon_reading no_reading
           eq_refl eq_refl eq_refl eq_refl).
Defined.

(** *** Frames that existed before a pass are left alone *)

Lemma safe_bind {A B} (base : list DataFrame) (m : M A) (k : A -> M B)
    (P : A -> Prop) (Q : B -> Prop) :
  safe base m P -> (forall a, P a -> safe base (k a) Q) ->
  safe base (bind m k) Q.
Proof.
  intros Hm Hk s Hs. unfold bind.
  destruct (Hm s Hs) as [E1 P1].
  destruct (m s) as [[a | e] s']; cbn [fst snd] in *.
  - apply Hk; auto.
  - split; [exact E1 | discriminate].
Qed.

Lemma safe_ret {A} (base : list DataFrame) (a : A) :
  safe base (ret a) (fun _ => True).
Proof. intros s Hs. split; [exact Hs | trivial]. Qed.

Lemma safe_lift {A} (base : list DataFrame) (r : result A) :
  safe base (lift r) (fun _ => True).
Proof. intros s Hs. split; [exact Hs | trivial]. Qed.

Lemma safe_get (base : list DataFrame) (a : addr) :
  safe base (get a) (fun _ => True).
Proof.
  intros s Hs. unfold get.
  destruct (nth_error (store s) a); (split; [exact Hs | trivial]).
Qed.

Lemma safe_emit (base : list DataFrame) (e : event) :
  safe base (emit e) (fun _ => True).
Proof. intros s Hs. split; [exact Hs | trivial]. Qed.

Lemma safe_new (base : list DataFrame) (frame : DataFrame) :
  safe base (new frame) (fresh_addr base).
Proof.
  intros s [fresh E]. cbn. split.
  - exists (fresh ++ [frame]). now rewrite E, app_assoc.
  - intros a [= <-]. unfold fresh_addr. rewrite E, length_app. lia.
Qed.

Lemma safe_copy (base : list DataFrame) (a : addr) :
  safe base (copy a) (fresh_addr base).
Proof.
  unfold copy. eapply safe_bind; [apply safe_get |].
  intros frame _. apply safe_new.
Qed.

Lemma safe_column_of (base : list DataFrame) (a : addr) (name : string) :
  safe base (column_of a name) (fun _ => True).
Proof.
  unfold column_of. eapply safe_bind; [apply safe_get |].
  intros frame _. apply safe_lift.
Qed.

Lemma update_fresh {A} (l fresh : list A) (a : nat) (x : A) :
  (List.length l <= a)%nat ->
  update a x (l ++ fresh) = l ++ update (a - List.length l) x fresh.
Proof.
  revert a. induction l as [| y l IH]; intros a Ha; cbn [List.length app].
  - now rewrite Nat.sub_0_r.
  - destruct a as [| a]; [cbn in Ha; lia |].
    cbn [update Nat.sub]. f_equal. apply IH. cbn in Ha. lia.
Qed.

Lemma safe_setitem (base : list DataFrame) (a : addr) (name : string)
    (cells : list pyobj) :
  fresh_addr base a -> safe base (setitem a name cells) (fun _ => True).
Proof.
  intros Ha s [fresh E]. unfold setitem.
  destruct (nth_error (store s) a) as [frame |];
    [| split; [now exists fresh | trivial]].
  destruct (Nat.eqb _ _); cbn [fst snd store];
    (split; [| trivial]); [| now exists fresh].
  rewrite E, update_fresh by exact Ha. now eexists.
Qed.

Lemma safe_apply (base : list DataFrame) (ev : pyobj -> event)
    (f : pyobj -> result pyobj)
    (series : list pyobj) :
  safe base (apply ev f series) (fun _ => True).
Proof.
  induction series as [| x rest IH]; cbn [apply]; [apply safe_ret |].
  eapply safe_bind; [apply safe_emit |]. intros _ _.
  eapply safe_bind; [apply safe_lift |]. intros y _.
  eapply safe_bind; [exact IH |]. intros ys _. apply safe_ret.
Qed.


Ltac safe_prim :=
  first [ apply safe_get | apply safe_lift | apply safe_emit
        | apply safe_new | apply safe_copy | apply safe_column_of
        | apply safe_apply | apply safe_ret
        | (apply safe_setitem; assumption) ].

Ltac safe_run :=
  repeat match goal with
    | |- safe _ (bind _ _) _ => eapply safe_bind; [safe_prim | intros ? ?]
    | |- safe _ (if negb ?b then _ else _) _ => destruct b; cbn [negb]
    | |- safe _ (if ?b then _ else _) _ => destruct b
    | |- safe _ _ _ => safe_prim
    end.

Lemma run_safe (v : variant) (base : list DataFrame) (df : addr) (d : Z) :
  safe base (run_of v df d) (fun _ => True).
Proof.
  destruct v; cbn [run_of];
    unfold App.run, AppWeather.run, AppWind.run, AppWindIcon.run,
      AppWindText.run, AppWindStatic.run;
    safe_run.
Qed.

(** C9.  A pass never changes a frame that existed before it, whatever the
    date and however the pass ends: the store afterwards is the store
    before, followed by the frames the pass created (the filtered subset
    and its copy, which alone receives the derived columns).  In
    particular the loaded dataset is the same before and after. *)
Theorem run_preserves_dataset (v : variant) (df : addr) (selected_date : Z)
    (s : state) :
  (exists fresh,
     store (snd (run_of v df selected_date s)) = store s ++ fresh) /\
  (forall a frame,
     nth_error (store s) a = Some frame ->
     nth_error (store (snd (run_of v df selected_date s))) a = Some frame).
Proof.
  assert (H : exists fresh,
             store (snd (run_of v df selected_date s)) = store s ++ fresh).
  { apply (run_safe v (store s) df selected_date s).
    exists []. now rewrite app_nil_r. }
  split; [exact H |].
  destruct H as [fresh ->]. intros a frame Ha.
  rewrite nth_error_app1; [exact Ha |].
  apply nth_error_Some. now rewrite Ha.
Qed.

Lemma run_preserves_dataset_witness :
  nth_error (store loaded) 0 = Some noon_reading /\
  nth_error (store (snd (run_of VWind 0%nat 20270 loaded))) 0 =
    Some noon_reading.
Proof.
  split; [reflexivity |].
  exact (proj2 (run_preserves_dataset VWind 0%nat 20270 loaded)
           0%nat noon_reading eq_refl).
Defined.

(** * Further properties of the code *)

(** ** The classifier *)

Lemma classifies_monotone (x y : pyfloat) (c c' : Category) :
  float_le x y -> classifies x c -> classifies y c' -> rank c <= rank c'.
Proof.
  intros Hle Hx Hy.
  assert (T : forall a b, above x a -> at_most y b -> (b <= a)%Q -> False).
  { intros a b Ha Hb Hba.
    destruct x as [p | [|] |], y as [q | [|] |]; simpl in *;
      try contradiction; try discriminate;
      try (destruct Hle; discriminate).
    apply (Qlt_irrefl p).
    eapply Qle_lt_trans; [exact Hle |].
    eapply Qle_lt_trans; [exact Hb |].
    eapply Qle_lt_trans; [exact Hba | exact Ha]. }
  destruct Hx, Hy; cbn [rank]; try lia; exfalso;
    match goal with
    | Ha : above _ ?a, Hb : at_most _ ?b |- _ =>
        solve [apply (T a b Ha Hb); discriminate]
    end.
Qed.

(** X1.  A higher vegetation index never gets a worse category: for floats
    [x <= y], in every script, the colour of [y] is the one of a category
    that ranks at least as high as the category of [x]. *)
Theorem ndvi_color_monotone (v : variant) (x y : pyfloat) :
  float_le x y ->
  exists c c',
    ndvi_color_of v (PyFloat x) = Ok (palette v c) /\
    ndvi_color_of v (PyFloat y) = Ok (palette v c') /\
    rank c <= rank c'.
Proof.
  intros Hle.
  assert (Hx : x <> NaN) by (destruct x as [? | [|] |]; easy).
  assert (Hy : y <> NaN)
    by (destruct x as [? | [|] |], y as [? | [|] |]; easy).
  destruct (classifies_total x Hx) as [c Hc].
  destruct (classifies_total y Hy) as [c' Hc'].
  exists c, c'. split; [now apply classifies_color |].
  split; [now apply classifies_color |].
  exact (classifies_monotone x y c c' Hle Hc Hc').
Qed.

Lemma ndvi_color_monotone_witness :
  exists c c',
    ndvi_color_of VWind (PyFloat (Finite 0.3%Q)) = Ok (palette VWind c) /\
    ndvi_color_of VWind (PyFloat (Finite 0.65%Q)) = Ok (palette VWind c') /\
    rank c <= rank c'.
Proof.
  apply (ndvi_color_monotone VWind (Finite 0.3%Q) (Finite 0.65%Q)).
  simpl. discriminate.
Defined.

(** X2.  In every script the classifier takes an int for its value, and
    raises [TypeError] on a str, on [None], on a timestamp, on a list and on
    a tuple: such a cell is not classified as Stressed. *)
Theorem ndvi_color_operand_types (v : variant) :
  (forall z : Z,
     ndvi_color_of v (PyInt z) =
     ndvi_color_of v (PyFloat (Finite (inject_Z z)))) /\
  (forall s, ndvi_color_of v (PyStr s) = Raise TypeError) /\
  ndvi_color_of v PyNone = Raise TypeError /\
  (forall t, ndvi_color_of v (PyTimestamp t) = Raise TypeError) /\
  (forall l, ndvi_color_of v (PyList l) = Raise TypeError) /\
  (forall l, ndvi_color_of v (PyTuple l) = Raise TypeError).
Proof.
  destruct v; repeat split; intros; reflexivity.
Qed.

(** ** The compass-arrow glyph *)

(** X3.  For a direction that is a whole number of half degrees, float or
    int: turning it by [k] sectors of 45 degrees moves its glyph [k]
    places round the compass; whole turns change nothing. *)
Theorem arrow_from_direction_turn (h k : Z) :
  AppWindText.arrow_from_direction (PyFloat (Finite ((h + 90 * k) # 2)))
    = glyph ((round_half_up ((h # 2) / 45) + k) mod 8) /\
  AppWindText.arrow_from_direction (PyFloat (Finite ((h + 720 * k) # 2)))
    = AppWindText.arrow_from_direction (PyFloat (Finite (h # 2))) /\
  AppWindText.arrow_from_direction (PyInt (h + 45 * k))
    = glyph ((round_half_up (inject_Z h / 45) + k) mod 8) /\
  AppWindText.arrow_from_direction (PyInt (h + 360 * k))
    = AppWindText.arrow_from_direction (PyInt h).
Proof.
  assert (Q1 : forall a b : Z, ((a + 2 * b) # 2 == (a # 2) + inject_Z b)%Q).
  { intros a b. unfold Qeq, Qplus, inject_Z. cbn [Qnum Qden]. lia. }
  split; [| split; [| split]].
  - rewrite (arrow_half _ (h + 90 * k)) by reflexivity.
    rewrite <- round_half_up_sectors. do 2 f_equal.
    unfold round_half_up. apply Qfloor_comp.
    replace (h + 90 * k) with (h + 2 * (45 * k)) by ring.
    rewrite Q1, inject_Z_mult. change (inject_Z 45) with 45%Q. reflexivity.
  - rewrite (arrow_half _ (h + 720 * k)), (arrow_half _ h) by reflexivity.
    f_equal. apply (round_half_up_turns _ _ k).
    replace (h + 720 * k) with (h + 2 * (360 * k)) by ring.
    rewrite Q1, inject_Z_mult. change (inject_Z 360) with 360%Q. reflexivity.
  - rewrite arrow_int, <- round_half_up_sectors. do 2 f_equal.
    unfold round_half_up. apply Qfloor_comp.
    rewrite inject_Z_plus, inject_Z_mult. change (inject_Z 45) with 45%Q.
    reflexivity.
  - rewrite !arrow_int. f_equal. apply (round_half_up_turns _ _ k).
    rewrite inject_Z_plus, inject_Z_mult. change (inject_Z 360) with 360%Q.
    reflexivity.
Qed.

(** X4.  Each glyph owns the 45 degrees centred on its direction: a
    direction that is a whole number of half degrees, from 22.5 degrees
    before [45 i] up to, but not including, 22.5 degrees after it, gets
    glyph [i] (modulo 8), as a float and, when it is a whole number of
    degrees, as an int. *)
Theorem arrow_from_direction_sector (h i : Z) :
  (45 * inject_Z i - 22.5 <= h # 2)%Q ->
  (h # 2 < 45 * inject_Z i + 22.5)%Q ->
  AppWindText.arrow_from_direction (PyFloat (Finite (h # 2))) =
    glyph (i mod 8) /\
  (forall z : Z, h = 2 * z ->
     AppWindText.arrow_from_direction (PyInt z) = glyph (i mod 8)).
Proof.
  intros Hlo Hhi.
  assert (R : forall q : Q, (q == h # 2)%Q -> round_half_up (q / 45) = i).
  { intros q E. unfold round_half_up.
    assert (F : (q / 45 + (1 # 2) == ((h # 2) + 22.5) * (1 # 45))%Q)
      by (rewrite E; field).
    rewrite F. apply Qfloor_unique.
    - Lqa.lra.
    - rewrite inject_Z_plus. change (inject_Z 1) with 1%Q. Lqa.lra. }
  split.
  - rewrite (arrow_half _ h) by reflexivity. now rewrite R.
  - intros z ->. rewrite arrow_int. rewrite R; [reflexivity |].
    unfold Qeq, inject_Z. cbn [Qnum Qden]. lia.
Qed.

Lemma arrow_from_direction_sector_witness :
  AppWindText.arrow_from_direction (PyFloat (Finite (200 # 2))) =
    glyph (2 mod 8) /\
  (forall z : Z, 200 = 2 * z ->
     AppWindText.arrow_from_direction (PyInt z) = glyph (2 mod 8)).
Proof.
  apply (arrow_from_direction_sector 200 2);
    [vm_compute; discriminate | reflexivity].
Defined.

(** ** Wind vectors *)

(** X5.  The wind line is as long as the wind is strong, whatever the
    direction: the displacement of app_wind.py has length
    [speed * scale], the arrow of app_wind_static.py has length [speed]. *)
Theorem wind_vector_length (scale speed bearing : Q) :
  (exists dx dy : R,
     map_offset scale speed bearing = Ok (preal dx, preal dy) /\
     (dx * dx + dy * dy = (Q2R speed * Q2R scale) * (Q2R speed * Q2R scale))%R)
  /\
  (exists u v : R,
     cartesian speed bearing = Ok (preal u, preal v) /\
     (u * u + v * v = Q2R speed * Q2R speed)%R).
Proof.
  set (t := (Q2R bearing * (PI / 180))%R).
  pose proof (sin2_cos2 t) as H. unfold Rsqr in H.
  split.
  - rewrite map_offset_formula. fold t. do 2 eexists.
    split; [reflexivity |].
    transitivity ((Q2R speed * Q2R scale) * (Q2R speed * Q2R scale)
                  * (sin t * sin t + cos t * cos t))%R; [ring |].
    rewrite H. ring.
  - rewrite cartesian_formula. fold t. do 2 eexists.
    split; [reflexivity |].
    transitivity (Q2R speed * Q2R speed
                  * (sin t * sin t + cos t * cos t))%R; [ring |].
    rewrite H. ring.
Qed.

Lemma bearing_plus (bearing k : Q) :
  (Q2R (bearing + k) * (PI / 180) =
   Q2R bearing * (PI / 180) + Q2R k * (PI / 180))%R.
Proof. rewrite Q2R_plus. ring. Qed.

Lemma bearing_360 : (Q2R 360 * (PI / 180) = 2 * PI)%R.
Proof. change 360%Q with (inject_Z 360). rewrite Q2R_inject_Z. Lra.lra. Qed.

Lemma bearing_180 : (Q2R 180 * (PI / 180) = PI)%R.
Proof. change 180%Q with (inject_Z 180). rewrite Q2R_inject_Z. Lra.lra. Qed.

(** X6.  A bearing and the same bearing plus 360 degrees give the same
    vector, in both scripts; the bearing plus 180 degrees gives the
    opposite displacement. *)
Theorem wind_vector_turns (scale speed bearing : Q) :
  map_offset scale speed (bearing + 360) = map_offset scale speed bearing /\
  cartesian speed (bearing + 360) = cartesian speed bearing /\
  exists dx dy : R,
    map_offset scale speed bearing = Ok (preal dx, preal dy) /\
    map_offset scale speed (bearing + 180) = Ok (preal (- dx), preal (- dy)).
Proof.
  split; [| split].
  - rewrite !map_offset_formula, bearing_plus, bearing_360.
    now rewrite sin_plus, cos_plus, sin_2PI, cos_2PI, !Rmult_1_r,
      !Rmult_0_r, Rplus_0_r, Rminus_0_r.
  - rewrite !cartesian_formula, bearing_plus, bearing_360.
    now rewrite sin_plus, cos_plus, sin_2PI, cos_2PI, !Rmult_1_r,
      !Rmult_0_r, Rplus_0_r, Rminus_0_r.
  - do 2 eexists. rewrite !map_offset_formula. split; [reflexivity |].
    rewrite bearing_plus, bearing_180, neg_sin, neg_cos.
    unfold preal. do 4 f_equal; ring.
Qed.

(** X7.  A wind direction that is not finite.  NaN goes through both
    scripts as NaN.  An infinite direction makes [math.sin] and [math.cos]
    raise [ValueError] in app_wind.py, while numpy turns it into NaN in
    app_wind_static.py. *)
Theorem wind_direction_not_finite (scale lon lat speed : Q) (b : bool) :
  (AppWind.theta (PyFloat NaN) = Ok (PyReal NaN) /\
   AppWind.end_lon (pyfloat_lit scale) (pyfloat_lit lon) (pyfloat_lit speed)
     (PyReal NaN) = Ok (PyReal NaN) /\
   AppWind.end_lat (pyfloat_lit scale) (pyfloat_lit lat) (pyfloat_lit speed)
     (PyReal NaN) = Ok (PyReal NaN) /\
   AppWindStatic.u (pyfloat_lit speed) (PyReal NaN) = Ok (PyReal NaN) /\
   AppWindStatic.v (pyfloat_lit speed) (PyReal NaN) = Ok (PyReal NaN)) /\
  (AppWind.theta (PyFloat (Inf b)) = Ok (PyReal (Inf b)) /\
   AppWind.end_lon (pyfloat_lit scale) (pyfloat_lit lon) (pyfloat_lit speed)
     (PyReal (Inf b)) = Raise ValueError /\
   AppWind.end_lat (pyfloat_lit scale) (pyfloat_lit lat) (pyfloat_lit speed)
     (PyReal (Inf b)) = Raise ValueError /\
   AppWindStatic.theta (PyFloat (Inf b)) = Ok (PyReal (Inf b)) /\
   AppWindStatic.u (pyfloat_lit speed) (PyReal (Inf b)) = Ok (PyReal NaN) /\
   AppWindStatic.v (pyfloat_lit speed) (PyReal (Inf b)) = Ok (PyReal NaN)).
Proof.
  repeat split; reflexivity.
Qed.

(** ** The date filter *)

Lemma select_map_filter {A} (p : A -> bool) (l : list A) :
  select (map p l) l = filter p l.
Proof.
  induction l as [| x l IH]; [reflexivity |].
  cbn [map select filter]. rewrite IH. now destruct (p x).
Qed.

Lemma select_length {A B} (mask : list bool) (a : list A) (b : list B) :
  List.length a = List.length b ->
  List.length (select mask a) = List.length (select mask b).
Proof.
  revert a b. induction mask as [| m mask IH]; intros a b H; [reflexivity |].
  destruct a as [| x a], b as [| y b]; try discriminate H; [reflexivity |].
  cbn [select]. injection H as H.
  destruct m; cbn [List.length]; now rewrite (IH a b H).
Qed.

Lemma select_all {A} (p : pyobj -> bool) (cells : list pyobj) (l : list A) :
  forallb p cells = true -> List.length l = List.length cells ->
  select (map p cells) l = l.
Proof.
  revert l. induction cells as [| c cells IH]; intros l Hp Hl.
  - now destruct l.
  - destruct l as [| x l]; [discriminate Hl |].
    cbn [forallb] in Hp. apply andb_true_iff in Hp. destruct Hp as [Hc Hp].
    cbn [map select]. rewrite Hc. f_equal. apply IH; [exact Hp |].
    now injection Hl.
Qed.

Lemma select_none {A} (p : pyobj -> bool) (cells : list pyobj) (l : list A) :
  forallb (fun c => negb (p c)) cells = true ->
  select (map p cells) l = [].
Proof.
  revert l. induction cells as [| c cells IH]; intros l Hp; [reflexivity |].
  destruct l as [| x l]; [reflexivity |].
  cbn [forallb] in Hp. apply andb_true_iff in Hp. destruct Hp as [Hc Hp].
  cbn [map select]. apply negb_true_iff in Hc. rewrite Hc. now apply IH.
Qed.

Lemma forallb_filter {A} (p : A -> bool) (l : list A) :
  forallb p (filter p l) = true.
Proof.
  induction l as [| x l IH]; [reflexivity |].
  cbn [filter]. destruct (p x) eqn:E; [| exact IH].
  cbn [forallb]. now rewrite E, IH.
Qed.

Lemma filtered_keeps (v : variant) (df sub : DataFrame) (d : Z) :
  filtered_of v df d = Ok sub ->
  exists dates,
    getitem df "date" = Ok dates /\
    sub = getitem_mask df (map (keeps v d) dates).
Proof.
  intros H. destruct v.
  1-5: cbn [keeps]; eapply filtered_pydeck; [| exact H]; discriminate.
  now apply filtered_static.
Qed.

Lemma lookup_length (name : string) (frame : DataFrame)
    (cells : list pyobj) :
  well_formed frame = true ->
  lookup name (columns frame) = Some cells ->
  List.length cells = List.length (index frame).
Proof.
  unfold well_formed. generalize (List.length (index frame)). intros n.
  induction (columns frame) as [| [m c] cols IH]; [discriminate |].
  cbn [forallb lookup snd]. intros H. apply andb_true_iff in H.
  destruct H as [Hc H]. destruct (String.eqb m name).
  - intros [= <-]. now apply Nat.eqb_eq.
  - now apply IH.
Qed.

Lemma getitem_length (name : string) (frame : DataFrame)
    (cells : list pyobj) :
  well_formed frame = true ->
  getitem frame name = Ok cells ->
  List.length cells = List.length (index frame).
Proof.
  unfold getitem. intros W H.
  destruct (lookup name (columns frame)) as [c |] eqn:E; [| discriminate].
  injection H as <-. exact (lookup_length name frame c W E).
Qed.

Lemma getitem_getitem_mask (name : string) (frame : DataFrame)
    (mask : list bool) (cells : list pyobj) :
  getitem frame name = Ok cells ->
  getitem (getitem_mask frame mask) name = Ok (select mask cells).
Proof.
  unfold getitem. rewrite lookup_getitem_mask.
  destruct (lookup name (columns frame)); [| discriminate].
  now intros [= <-].
Qed.

Lemma well_formed_getitem_mask (frame : DataFrame) (mask : list bool) :
  well_formed frame = true -> well_formed (getitem_mask frame mask) = true.
Proof.
  unfold well_formed, getitem_mask. cbn [index columns].
  induction (columns frame) as [| [n c] cols IH]; [reflexivity |].
  cbn [forallb map fst snd]. intros H. apply andb_true_iff in H.
  destruct H as [Hc H]. rewrite (IH H), andb_true_r.
  apply Nat.eqb_eq. apply select_length. now apply Nat.eqb_eq.
Qed.

Lemma filtered_kept (v : variant) (df sub : DataFrame) (d : Z) :
  well_formed df = true ->
  filtered_of v df d = Ok sub ->
  exists dates,
    getitem df "date" = Ok dates /\
    sub = getitem_mask df (map (keeps v d) dates) /\
    getitem sub "date" = Ok (filter (keeps v d) dates) /\
    List.length (index sub) = List.length (filter (keeps v d) dates).
Proof.
  intros W H. destruct (filtered_keeps v df sub d H) as [dates [Hd ->]].
  exists dates. split; [exact Hd |]. split; [reflexivity |].
  split.
  - rewrite (getitem_getitem_mask _ _ _ _ Hd). now rewrite select_map_filter.
  - rewrite <- select_map_filter. cbn [getitem_mask index].
    apply select_length. symmetry. now apply (getitem_length "date" df).
Qed.

(** X8.  What the date filter of a script returns, for a well-formed
    frame: a well-formed frame with the same columns in the same order,
    whose rows are all rows the script keeps for that day (in the five
    pydeck scripts the rows of that day, in app_wind_static.py those of
    that day at 00:00), and as many of them as the dataset has. *)
Theorem filtered_selected_day (v : variant) (df sub : DataFrame) (d : Z) :
  well_formed df = true ->
  filtered_of v df d = Ok sub ->
  well_formed sub = true /\
  map fst (columns sub) = map fst (columns df) /\
  exists dates kept,
    getitem df "date" = Ok dates /\
    getitem sub "date" = Ok kept /\
    kept = filter (keeps v d) dates /\
    forallb (keeps v d) kept = true /\
    List.length (index sub) = List.length kept.
Proof.
  intros W H.
  destruct (filtered_kept v df sub d W H) as [dates [Hd [E [Hk Hlen]]]].
  split; [subst sub; now apply well_formed_getitem_mask |].
  split.
  { subst sub. unfold getitem_mask. cbn [columns]. now rewrite map_map. }
  exists dates, (filter (keeps v d) dates).
  repeat split; try assumption. apply forallb_filter.
Qed.

Lemma filtered_selected_day_witness :
  well_formed noon_reading = true /\
  map fst (columns noon_reading) = map fst (columns noon_reading) /\
  exists dates kept,
    getitem noon_reading "date" = Ok dates /\
    getitem noon_reading "date" = Ok kept /\
    kept = filter (keeps VApp 20270) dates /\
    forallb (keeps VApp 20270) kept = true /\
    List.length (index noon_reading) = List.length kept.
Proof.
  exact (filtered_selected_day VApp noon_reading noon_reading 20270
           eq_refl eq_refl).
Defined.

Lemma dt_date_ok (cells : list pyobj) :
  forallb is_timestamp cells = true -> exists days, dt_date cells = Ok days.
Proof.
  unfold dt_date. induction cells as [| c cells IH]; [now exists [] |].
  cbn [forallb]. intros H. apply andb_true_iff in H. destruct H as [Hc H].
  destruct (IH H) as [days E]. cbn [rmap]. rewrite E.
  destruct c; try discriminate Hc. cbn. now eexists.
Qed.

Lemma filtered_of_dates (v : variant) (frame : DataFrame) (d : Z)
    (dates : list pyobj) :
  getitem frame "date" = Ok dates ->
  forallb is_timestamp dates = true ->
  filtered_of v frame d = Ok (getitem_mask frame (map (keeps v d) dates)).
Proof.
  intros Hd Ht.
  assert (P : (mask <- mask_dt_date frame d ;;
               Ok (getitem_mask frame mask))%res
              = Ok (getitem_mask frame (map (same_day d) dates))).
  { unfold mask_dt_date. rewrite Hd. cbn [rbind].
    destruct (dt_date_ok dates Ht) as [days E]. rewrite E. cbn [rbind].
    now rewrite (dt_date_mask _ _ _ E). }
  destruct v; try exact P.
  cbn [filtered_of keeps]. unfold AppWindStatic.filtered.
  rewrite Hd. cbn [rbind]. do 2 f_equal.
  unfold eq_timestamp. apply map_ext. intros c.
  destruct c as [| | | | | [ns |] | |]; try reflexivity.
  pose proof (eq_timestamp_mask_cell ns d) as E.
  unfold eq_timestamp in E. cbn [map] in E. now injection E.
Qed.

Lemma keeps_is_timestamp (v : variant) (d : Z) (cells : list pyobj) :
  forallb (keeps v d) cells = true -> forallb is_timestamp cells = true.
Proof.
  induction cells as [| c cells IH]; [reflexivity |].
  cbn [forallb]. intros H. apply andb_true_iff in H. destruct H as [Hc H].
  rewrite (IH H), andb_true_r.
  destruct v, c; try discriminate Hc; reflexivity.
Qed.

Lemma keeps_other_day (v : variant) (d d' : Z) (cells : list pyobj) :
  d' <> d ->
  forallb (keeps v d) cells = true ->
  forallb (fun c => negb (keeps v d' c)) cells = true.
Proof.
  intros Hdd. induction cells as [| c cells IH]; [reflexivity |].
  cbn [forallb]. intros H. apply andb_true_iff in H. destruct H as [Hc H].
  rewrite (IH H), andb_true_r. apply negb_true_iff.
  assert (S : forall ns, (ts_date ns =? d) = true ->
                         (ts_date ns =? d') = false).
  { intros ns E. apply Z.eqb_eq in E. apply Z.eqb_neq. congruence. }
  destruct v, c as [| | | | | [ns |] | |]; cbn [keeps same_day
    same_day_midnight] in *; try discriminate Hc; try (now apply S).
  apply andb_true_iff in Hc. destruct Hc as [Hc _].
  now rewrite (S ns Hc).
Qed.

Lemma getitem_mask_all (p : pyobj -> bool) (frame : DataFrame)
    (cells : list pyobj) :
  well_formed frame = true ->
  forallb p cells = true ->
  List.length cells = List.length (index frame) ->
  getitem_mask frame (map p cells) = frame.
Proof.
  destruct frame as [idx cols]. unfold well_formed, getitem_mask.
  cbn [index columns]. intros W Hp Hl. f_equal.
  - now apply select_all.
  - induction cols as [| [n c] cols IH]; [reflexivity |].
    cbn [forallb snd] in W. apply andb_true_iff in W. destruct W as [Wc W].
    cbn [map fst snd]. rewrite (IH W). do 2 f_equal.
    apply select_all; [exact Hp |]. apply Nat.eqb_eq in Wc. congruence.
Qed.

(** X9.  Filtering twice.  Filtering the subset of a day again by the same
    day gives the same subset; filtering it by any other day leaves no
    row. *)
Theorem filtered_twice (v : variant) (df sub : DataFrame) (d d' : Z) :
  well_formed df = true ->
  filtered_of v df d = Ok sub ->
  filtered_of v sub d = Ok sub /\
  (d' <> d ->
   exists none, filtered_of v sub d' = Ok none /\
                index none = [] /\ empty none = true).
Proof.
  intros W H.
  destruct (filtered_kept v df sub d W H) as [dates [_ [Es [Hk Hlen]]]].
  assert (Wsub : well_formed sub = true)
    by (rewrite Es; now apply well_formed_getitem_mask).
  clear Es.
  set (kept := filter (keeps v d) dates) in *.
  assert (Hall : forallb (keeps v d) kept = true) by apply forallb_filter.
  pose proof (keeps_is_timestamp v d kept Hall) as Ht.
  split.
  - rewrite (filtered_of_dates v sub d kept Hk Ht). f_equal.
    apply getitem_mask_all; [exact Wsub | exact Hall | now symmetry].
  - intros Hdd. eexists.
    split; [exact (filtered_of_dates v sub d' kept Hk Ht) |].
    assert (E : index (getitem_mask sub (map (keeps v d') kept)) = []).
    { cbn [getitem_mask index]. apply select_none.
      now apply (keeps_other_day v d d'). }
    split; [exact E |]. unfold empty. now rewrite E.
Qed.

Lemma filtered_twice_witness :
  filtered_of VWindIcon noon_reading 20270 = Ok noon_reading /\
  exists none, filtered_of VWindIcon noon_reading 20271 = Ok none /\
               index none = [] /\ empty none = true.
Proof.
  destruct (filtered_twice VWindIcon noon_reading noon_reading 20270 20271
              eq_refl eq_refl) as [H1 H2].
  split; [exact H1 |]. apply H2. discriminate.
Defined.

(** X10.  On a dataset whose dates carry no time of day (each date cell
    is a timestamp at 00:00, or NaT), app_wind_static.py filters exactly as
    the five pydeck scripts do. *)
Theorem filtered_static_agrees (v : variant) (df : DataFrame) (d : Z)
    (dates : list pyobj) :
  getitem df "date" = Ok dates ->
  forallb at_midnight dates = true ->
  filtered_of VWindStatic df d = filtered_of v df d.
Proof.
  intros Hd Hm.
  assert (Ht : forallb is_timestamp dates = true).
  { clear Hd. induction dates as [| c dates IH]; [reflexivity |].
    cbn [forallb] in *. apply andb_true_iff in Hm. destruct Hm as [Hc Hm].
    rewrite (IH Hm), andb_true_r. now destruct c. }
  rewrite !(filtered_of_dates _ df d dates Hd Ht). do 2 f_equal.
  clear Hd Ht. induction dates as [| c dates IH]; [reflexivity |].
  cbn [forallb] in Hm. apply andb_true_iff in Hm. destruct Hm as [Hc Hm].
  cbn [map]. rewrite (IH Hm). f_equal.
  destruct v, c as [| | | | | [ns |] | |]; try reflexivity;
    cbn [keeps same_day same_day_midnight at_midnight] in *;
    now rewrite Hc, andb_true_r.
Qed.

Lemma filtered_static_agrees_witness :
  filtered_of VWindStatic three_rows 20271 =
  filtered_of VWindText three_rows 20271.
Proof.
  exact (filtered_static_agrees VWindText three_rows 20271 _ eq_refl eq_refl).
Defined.

(** ** The date slider *)










(** ** A pass that has data to show *)

Lemma bind_copy {A} (a : addr) (k : addr -> M A) (s : state)
    (frame : DataFrame) :
  nth_error (store s) a = Some frame ->
  bind (copy a) k s =
  k (List.length (store s))
    {| store := store s ++ [frame]; trace := trace s |}.
Proof. intros H. unfold copy, bind, get, new. now rewrite H. Qed.

Lemma bind_column_of {A} (a : addr) (name : string)
    (k : list pyobj -> M A) (s : state) (frame : DataFrame)
    (cells : list pyobj) :
  nth_error (store s) a = Some frame ->
  getitem frame name = Ok cells ->
  bind (column_of a name) k s = k cells s.
Proof.
  intros H G. unfold column_of, bind, get, lift. now rewrite H, G.
Qed.

Lemma apply_ok (ev : pyobj -> event) (f : pyobj -> result pyobj)
    (series ys : list pyobj) (s : state) :
  rmap f series = Ok ys ->
  apply ev f series s =
  (Ok ys, {| store := store s; trace := trace s ++ map ev series |}).
Proof.
  revert ys s. induction series as [| x rest IH]; intros ys s H.
  - injection H as <-. cbn. rewrite app_nil_r. now destruct s.
  - cbn [rmap] in H. destruct (f x) as [y |] eqn:Ex; [| discriminate H].
    cbn [rbind] in H.
    destruct (rmap f rest) as [ys' |] eqn:Er; [| discriminate H].
    cbn [rbind] in H. injection H as <-.
    cbn [apply]. rewrite bind_emit, (bind_lift _ _ _ _ Ex).
    unfold bind at 1. rewrite (IH ys' _ eq_refl). cbn [ret store trace map].
    now rewrite <- app_assoc.
Qed.

Lemma bind_apply {A} (ev : pyobj -> event) (f : pyobj -> result pyobj)
    (series ys : list pyobj) (k : list pyobj -> M A) (s : state) :
  rmap f series = Ok ys ->
  bind (apply ev f series) k s =
  k ys {| store := store s; trace := trace s ++ map ev series |}.
Proof. intros H. unfold bind. now rewrite (apply_ok _ _ _ _ _ H). Qed.

Lemma bind_setitem {A} (a : addr) (name : string) (cells : list pyobj)
    (k : unit -> M A) (s : state) (frame : DataFrame) :
  nth_error (store s) a = Some frame ->
  List.length cells = List.length (index frame) ->
  bind (setitem a name cells) k s =
  k tt {| store := update a (with_column frame name cells) (store s);
          trace := trace s |}.
Proof.
  intros H L. unfold bind, setitem. rewrite H.
  apply Nat.eqb_eq in L. now rewrite L.
Qed.

Lemma update_last {A} (l : list A) (x y : A) :
  update (List.length l) x (l ++ [y]) = l ++ [x].
Proof. induction l as [| z l IH]; cbn; [reflexivity | now rewrite IH]. Qed.

Lemma rmap_length {A B} (f : A -> result B) (l : list A) (ys : list B) :
  rmap f l = Ok ys -> List.length ys = List.length l.
Proof.
  revert ys. induction l as [| x l IH]; intros ys H; cbn [rmap] in H.
  - now injection H as <-.
  - destruct (f x); [| discriminate H]. cbn [rbind] in H.
    destruct (rmap f l) as [ys' |]; [| discriminate H].
    cbn [rbind] in H. injection H as <-. cbn. now rewrite (IH ys').
Qed.

Lemma lookup_set_column_other (n name : string) (cells : list pyobj)
    (cols : list (string * list pyobj)) :
  n <> name -> lookup n (set_column name cells cols) = lookup n cols.
Proof.
  intros Hn. induction cols as [| [m c] cols IH]; cbn [set_column lookup].
  - destruct (String.eqb name n) eqn:E; [| reflexivity].
    apply String.eqb_eq in E. now contradiction Hn.
  - destruct (String.eqb m name) eqn:E; cbn [lookup].
    + apply String.eqb_eq in E. subst m.
      destruct (String.eqb name n) eqn:E'; [| reflexivity].
      apply String.eqb_eq in E'. now contradiction Hn.
    + now rewrite IH.
Qed.

Lemma getitem_with_column_other (frame : DataFrame) (n name : string)
    (cells : list pyobj) :
  n <> name -> getitem (with_column frame name cells) n = getitem frame n.
Proof.
  intros Hn. unfold getitem, with_column. cbn [columns].
  now rewrite lookup_set_column_other.
Qed.

Lemma getitem_cols_with_column (frame : DataFrame) (names : list string)
    (name : string) (cells : list pyobj) :
  ~ In name names ->
  getitem_cols (with_column frame name cells) names =
  getitem_cols frame names.
Proof.
  intros Hn. unfold getitem_cols.
  assert (E : forall l, ~ In name l ->
            rmap (fun n => (c <- getitem (with_column frame name cells) n ;;
                            Ok (n, c))%res) l =
            rmap (fun n => (c <- getitem frame n ;; Ok (n, c))%res) l).
  { induction l as [| n l IH]; intros Hl; [reflexivity |].
    cbn [rmap]. rewrite getitem_with_column_other, IH; [reflexivity | |].
    - intros H. apply Hl. now right.
    - intros ->. apply Hl. now left. }
  now rewrite (E names Hn).
Qed.

Lemma has_columns_getitem (frame : DataFrame) (names : list string)
    (n : string) :
  has_columns frame names = true -> In n names ->
  exists cells, getitem frame n = Ok cells.
Proof.
  unfold has_columns, getitem. rewrite forallb_forall. intros H Hin.
  specialize (H n Hin). destruct (lookup n (columns frame)); [| discriminate].
  now eexists.
Qed.

Lemma ndvi_color_numbers (cells : list pyobj) :
  forallb is_number cells = true ->
  exists colors, rmap App.ndvi_color cells = Ok colors.
Proof.
  induction cells as [| c cells IH]; [now exists [] |].
  cbn [forallb]. intros H. apply andb_true_iff in H. destruct H as [Hc H].
  destruct (IH H) as [colors E]. cbn [rmap]. rewrite E.
  assert (Ec : exists col, App.ndvi_color c = Ok col).
  { unfold App.ndvi_color.
    destruct c as [z | f | x | | | | |]; try discriminate Hc; cbn [py_gt
      promote pyfloat_lit as_real rbind].
    - destruct (float_gt _ _); [now eexists |].
      destruct (float_gt _ _); now eexists.
    - destruct (float_gt f _); [now eexists |].
      destruct (float_gt f _); now eexists.
    - destruct (real_gt x _); [now eexists |].
      destruct (real_gt x _); now eexists. }
  destruct Ec as [col ->]. cbn. now eexists.
Qed.

Lemma series_mean_numbers (cells : list pyobj) :
  forallb is_number cells = true ->
  series_mean cells = Ok (Mean (present cells)).
Proof.
  intros H. unfold series_mean.
  assert (E : forallb is_number (present cells) = true).
  { unfold present. induction cells as [| c cells IH]; [reflexivity |].
    cbn [forallb] in H. apply andb_true_iff in H. destruct H as [Hc H].
    cbn [filter]. destruct (negb (is_missing c)); [| now apply IH].
    cbn [forallb]. now rewrite Hc, IH. }
  now rewrite E.
Qed.

(** X12.  app.py on a day that has readings.  If the dataset is
    well-formed, has the six displayed columns, and the NDVI, latitude and
    longitude cells of the selected rows are numbers, the pass ends without
    error.  It calls the classifier once per selected row, in row order,
    after the table and before the map; the colours land in a ["color"]
    column of a copy, one per row; the map is centred on the means of the
    latitudes and of the longitudes that are not missing; and the frame
    returned by the filter keeps its columns. *)
Theorem app_run_renders (df : addr) (selected_date : Z) (s : state)
    (data sub : DataFrame) (ndvi lat lon : list pyobj) :
  nth_error (store s) df = Some data ->
  well_formed data = true ->
  has_columns data ["lat"; "lon"; "date"; "NDVI"; "NDWI"; "EVI"]%string
    = true ->
  App.filtered data selected_date = Ok sub ->
  empty sub = false ->
  getitem sub "NDVI" = Ok ndvi ->
  getitem sub "lat" = Ok lat ->
  getitem sub "lon" = Ok lon ->
  forallb is_number ndvi = true ->
  forallb is_number lat = true ->
  forallb is_number lon = true ->
  exists colors tbl veg,
    rmap App.ndvi_color ndvi = Ok colors /\
    List.length colors = List.length (index sub) /\
    getitem_cols sub ["lat"; "lon"; "date"; "NDVI"; "NDWI"; "EVI"]%string
      = Ok tbl /\
    getitem_cols sub ["NDVI"; "NDWI"; "EVI"]%string = Ok veg /\
    App.run df selected_date s =
    (Ok tt,
     {| store := store s ++ [sub; with_column sub "color" colors];
        trace :=
          trace s
          ++ [St_subheader (DataFor selected_date);
              St_dataframe (reset_index tbl)]
          ++ map Call_ndvi_color ndvi
          ++ [Pdk_Layer "ScatterplotLayer" (with_column sub "color" colors);
              Pdk_ViewState (Mean (present lat)) (Mean (present lon));
              St_pydeck_chart ["ScatterplotLayer"%string];
              St_subheader (Lit "Summary Statistics");
              St_write_describe veg] |}).
Proof.
  intros Hdf W Hcols Hsub Hempty Hndvi Hlat Hlon Hnum Nlat Nlon.
  destruct (filtered_kept VApp data sub selected_date W Hsub)
    as [dates [_ [Es _]]].
  assert (Wsub : well_formed sub = true)
    by (rewrite Es; now apply well_formed_getitem_mask).
  assert (Hshown : has_columns sub
            ["lat"; "lon"; "date"; "NDVI"; "NDWI"; "EVI"]%string = true)
    by (rewrite Es; now rewrite has_columns_getitem_mask).
  clear Es.
  destruct (getitem_cols_ok sub _ Hshown) as [tbl Htbl].
  assert (Hveg : has_columns sub ["NDVI"; "NDWI"; "EVI"]%string = true).
  { unfold has_columns in *. cbn [forallb] in *.
    repeat (apply andb_true_iff in Hshown; destruct Hshown as [? Hshown]).
    repeat (apply andb_true_iff; split); assumption. }
  destruct (getitem_cols_ok sub _ Hveg) as [veg Hveg'].
  destruct (ndvi_color_numbers ndvi Hnum) as [colors Hcolors].
  assert (Hlen : List.length colors = List.length (index sub)).
  { rewrite (rmap_length _ _ _ Hcolors).
    now apply (getitem_length "NDVI" sub). }
  exists colors, tbl, veg.
  repeat (split; [assumption |]).
  set (colored := with_column sub "color" colors).
  assert (Clat : getitem colored "lat" = Ok lat).
  { unfold colored. rewrite getitem_with_column_other; [exact Hlat |].
    discriminate. }
  assert (Clon : getitem colored "lon" = Ok lon).
  { unfold colored. rewrite getitem_with_column_other; [exact Hlon |].
    discriminate. }
  assert (Cveg : getitem_cols colored ["NDVI"; "NDWI"; "EVI"]%string
                 = Ok veg).
  { unfold colored. rewrite getitem_cols_with_column; [exact Hveg' |].
    cbn. intros [H | [H | [H | []]]]; discriminate H. }
  unfold App.run.
  rewrite (bind_get _ _ _ _ Hdf), (bind_lift _ _ _ _ Hsub), bind_new,
    bind_emit.
  rewrite (bind_get _ _ _ sub) by apply nth_error_last.
  rewrite (bind_lift _ _ _ _ Htbl), bind_emit.
  rewrite (bind_get _ _ _ sub) by apply nth_error_last.
  rewrite Hempty. cbn [negb].
  rewrite (bind_copy _ _ _ sub) by apply nth_error_last.
  cbn [store trace].
  rewrite (bind_column_of _ _ _ _ sub ndvi)
    by (try apply nth_error_last; exact Hndvi).
  rewrite (bind_apply _ _ _ _ _ _ Hcolors). cbn [store trace].
  rewrite (bind_setitem _ _ _ _ _ sub)
    by (try apply nth_error_last; exact Hlen).
  cbn [store trace]. rewrite update_last. fold colored.
  rewrite (bind_get _ _ _ colored) by apply nth_error_last.
  rewrite bind_emit.
  rewrite (bind_column_of _ _ _ _ colored lat)
    by (try apply nth_error_last; exact Clat).
  rewrite (bind_lift _ _ _ _ (series_mean_numbers lat Nlat)).
  rewrite (bind_column_of _ _ _ _ colored lon)
    by (try apply nth_error_last; exact Clon).
  rewrite (bind_lift _ _ _ _ (series_mean_numbers lon Nlon)).
  rewrite !bind_emit. cbn [store trace].
  rewrite (bind_lift _ _ _ _ Cveg).
  unfold emit. cbn [store trace].
  f_equal. f_equal.
  - now rewrite <- app_assoc.
  - repeat rewrite <- app_assoc. reflexivity.
Qed.

Lemma app_run_renders_witness :
  exists colors,
    rmap App.ndvi_color [pyfloat_lit 0.7] = Ok colors /\
    store (snd (App.run 0%nat 20270 loaded)) =
      [noon_reading; noon_reading; with_column noon_reading "color" colors].
Proof.
  destruct (app_run_renders 0%nat 20270 loaded noon_reading noon_reading
              [pyfloat_lit 0.7] [pyfloat_lit 47.55] [pyfloat_lit 12.97]
              eq_refl eq_refl eq_refl eq_refl eq_refl
              eq_refl eq_refl eq_refl eq_refl eq_refl eq_refl)
    as [colors [tbl [veg [H1 [_ [_ [_ H]]]]]]].
  exists colors. split; [exact H1 |]. now rewrite H.
Defined.

Lemma apply_raise (ev : pyobj -> event) (f : pyobj -> result pyobj)
    (good rest ys : list pyobj) (bad : pyobj) (e : exn) (s : state) :
  rmap f good = Ok ys ->
  f bad = Raise e ->
  apply ev f (good ++ bad :: rest) s =
  (Raise e,
   {| store := store s; trace := trace s ++ map ev good ++ [ev bad] |}).
Proof.
  revert ys s. induction good as [| x good IH]; intros ys s H Hbad.
  - cbn [app apply map]. rewrite bind_emit. unfold bind, lift.
    now rewrite Hbad.
  - cbn [rmap] in H. destruct (f x) as [y |] eqn:Ex; [| discriminate H].
    cbn [rbind] in H.
    destruct (rmap f good) as [ys' |] eqn:Er; [| discriminate H].
    cbn [app apply]. rewrite bind_emit, (bind_lift _ _ _ _ Ex).
    unfold bind at 1. rewrite (IH ys' _ eq_refl Hbad).
    cbn [store trace map]. now rewrite <- app_assoc.
Qed.

(** X13.  app.py on a vegetation index that cannot be classified.  If the
    classifier raises on the NDVI cell of a selected row, the pass ends
    with that exception: the table of the day has been shown, the
    classifier was called on the rows up to that one and on no later row,
    no map and no statistics follow, and no frame received a column. *)
Theorem app_run_unclassifiable (df : addr) (selected_date : Z) (s : state)
    (data sub : DataFrame) (good rest colors : list pyobj) (bad : pyobj)
    (e : exn) :
  nth_error (store s) df = Some data ->
  has_columns data ["lat"; "lon"; "date"; "NDVI"; "NDWI"; "EVI"]%string
    = true ->
  App.filtered data selected_date = Ok sub ->
  empty sub = false ->
  getitem sub "NDVI" = Ok (good ++ bad :: rest) ->
  rmap App.ndvi_color good = Ok colors ->
  App.ndvi_color bad = Raise e ->
  exists tbl,
    App.run df selected_date s =
    (Raise e,
     {| store := store s ++ [sub; sub];
        trace :=
          trace s
          ++ [St_subheader (DataFor selected_date);
              St_dataframe (reset_index tbl)]
          ++ map Call_ndvi_color good ++ [Call_ndvi_color bad] |}).
Proof.
  intros Hdf Hcols Hsub Hempty Hndvi Hgood Hbad.
  destruct (filtered_of_mask VApp data sub selected_date Hsub) as [mask Es].
  assert (Hshown : has_columns sub
            ["lat"; "lon"; "date"; "NDVI"; "NDWI"; "EVI"]%string = true)
    by (rewrite Es; now rewrite has_columns_getitem_mask).
  clear Es.
  destruct (getitem_cols_ok sub _ Hshown) as [tbl Htbl].
  exists tbl. unfold App.run.
  rewrite (bind_get _ _ _ _ Hdf), (bind_lift _ _ _ _ Hsub), bind_new,
    bind_emit.
  rewrite (bind_get _ _ _ sub) by apply nth_error_last.
  rewrite (bind_lift _ _ _ _ Htbl), bind_emit.
  rewrite (bind_get _ _ _ sub) by apply nth_error_last.
  rewrite Hempty. cbn [negb].
  rewrite (bind_copy _ _ _ sub) by apply nth_error_last.
  cbn [store trace].
  rewrite (bind_column_of _ _ _ _ sub _)
    by (try apply nth_error_last; exact Hndvi).
  unfold bind at 1. rewrite (apply_raise _ _ _ _ _ _ _ _ Hgood Hbad).
  cbn [store trace]. f_equal. f_equal.
  - now rewrite <- app_assoc.
  - repeat rewrite <- app_assoc. reflexivity.
Qed.

Lemma app_run_unclassifiable_witness :
  exists tbl,
    App.run 0%nat 20270 {| store := [unreadable_ndvi]; trace := [] |} =
    (Raise TypeError,
     {| store := [unreadable_ndvi; unreadable_ndvi; unreadable_ndvi];
        trace := [St_subheader (DataFor 20270);
                  St_dataframe (reset_index tbl);
                  Call_ndvi_color (PyStr "low")] |}).
Proof.
  exact (app_run_unclassifiable 0%nat 20270
           {| store := [unreadable_ndvi]; trace := [] |}
           unreadable_ndvi unreadable_ndvi [] [] [] (PyStr "low") TypeError
           eq_refl eq_refl eq_refl eq_refl eq_refl eq_refl eq_refl).
Defined.






Lemma series_mean_str (cells : list pyobj) (x : string) :
  In (PyStr x) cells -> series_mean cells = Raise TypeError.
Proof.
  intros H. unfold series_mean.
  assert (P : In (PyStr x) (present cells)).
  { unfold present. apply filter_In. now split. }
  assert (N : forallb is_number (present cells) = false).
  { apply not_true_iff_false. intros F. rewrite forallb_forall in F.
    discriminate (F _ P). }
  assert (T : forallb is_timestamp (present cells) = false).
  { apply not_true_iff_false. intros F. rewrite forallb_forall in F.
    discriminate (F _ P). }
  now rewrite N, T.
Qed.

(** X15.  app.py on latitudes that cannot be averaged.  If the NDVI cells
    of the selected rows are numbers but a latitude cell is a [str], the
    pass ends with [TypeError], raised by [filtered['lat'].mean()]: the
    table of the day has been shown, every row was classified and the
    scatter layer was built on the coloured copy, but no view state, no
    chart and no statistics follow. *)
Theorem app_run_unaveraged (df : addr) (selected_date : Z) (s : state)
    (data sub : DataFrame) (ndvi lat : list pyobj) (x : string) :
  nth_error (store s) df = Some data ->
  well_formed data = true ->
  has_columns data ["lat"; "lon"; "date"; "NDVI"; "NDWI"; "EVI"]%string
    = true ->
  App.filtered data selected_date = Ok sub ->
  empty sub = false ->
  getitem sub "NDVI" = Ok ndvi ->
  getitem sub "lat" = Ok lat ->
  forallb is_number ndvi = true ->
  In (PyStr x) lat ->
  exists colors tbl,
    rmap App.ndvi_color ndvi = Ok colors /\
    getitem_cols sub ["lat"; "lon"; "date"; "NDVI"; "NDWI"; "EVI"]%string
      = Ok tbl /\
    App.run df selected_date s =
    (Raise TypeError,
     {| store := store s ++ [sub; with_column sub "color" colors];
        trace :=
          trace s
          ++ [St_subheader (DataFor selected_date);
              St_dataframe (reset_index tbl)]
          ++ map Call_ndvi_color ndvi
          ++ [Pdk_Layer "ScatterplotLayer"
                (with_column sub "color" colors)] |}).
Proof.
  intros Hdf W Hcols Hsub Hempty Hndvi Hlat Hnum Hstr.
  destruct (filtered_kept VApp data sub selected_date W Hsub)
    as [dates [_ [Es _]]].
  assert (Wsub : well_formed sub = true)
    by (rewrite Es; now apply well_formed_getitem_mask).
  assert (Hshown : has_columns sub
            ["lat"; "lon"; "date"; "NDVI"; "NDWI"; "EVI"]%string = true)
    by (rewrite Es; now rewrite has_columns_getitem_mask).
  clear Es.
  destruct (getitem_cols_ok sub _ Hshown) as [tbl Htbl].
  destruct (ndvi_color_numbers ndvi Hnum) as [colors Hcolors].
  assert (Hlen : List.length colors = List.length (index sub)).
  { rewrite (rmap_length _ _ _ Hcolors).
    now apply (getitem_length "NDVI" sub). }
  exists colors, tbl.
  split; [exact Hcolors |]. split; [exact Htbl |].
  set (colored := with_column sub "color" colors).
  assert (Clat : getitem colored "lat" = Ok lat).
  { unfold colored. rewrite getitem_with_column_other; [exact Hlat |].
    discriminate. }
  unfold App.run.
  rewrite (bind_get _ _ _ _ Hdf), (bind_lift _ _ _ _ Hsub), bind_new,
    bind_emit.
  rewrite (bind_get _ _ _ sub) by apply nth_error_last.
  rewrite (bind_lift _ _ _ _ Htbl), bind_emit.
  rewrite (bind_get _ _ _ sub) by apply nth_error_last.
  rewrite Hempty. cbn [negb].
  rewrite (bind_copy _ _ _ sub) by apply nth_error_last.
  cbn [store trace].
  rewrite (bind_column_of _ _ _ _ sub ndvi)
    by (try apply nth_error_last; exact Hndvi).
  rewrite (bind_apply _ _ _ _ _ _ Hcolors). cbn [store trace].
  rewrite (bind_setitem _ _ _ _ _ sub)
    by (try apply nth_error_last; exact Hlen).
  cbn [store trace]. rewrite update_last. fold colored.
  rewrite (bind_get _ _ _ colored) by apply nth_error_last.
  rewrite bind_emit.
  rewrite (bind_column_of _ _ _ _ colored lat)
    by (try apply nth_error_last; exact Clat).
  unfold bind at 1, lift. rewrite (series_mean_str lat x Hstr).
  cbn [store trace]. f_equal. f_equal.
  - now rewrite <- app_assoc.
  - repeat rewrite <- app_assoc. reflexivity.
Qed.

Lemma app_run_unaveraged_witness :
  fst (App.run 0%nat 20270 {| store := [unreadable_lat]; trace := [] |}) =
  Raise TypeError.
Proof.
  destruct (app_run_unaveraged 0%nat 20270
              {| store := [unreadable_lat]; trace := [] |}
              unreadable_lat unreadable_lat [pyfloat_lit 0.7]
              [PyStr "north"] "north"
              eq_refl eq_refl eq_refl eq_refl eq_refl eq_refl eq_refl
              eq_refl (or_introl eq_refl))
    as [colors [tbl [_ [_ H]]]].
  now rewrite H.
Defined.
